(** * CardioCare risk scorer: a shallow embedding of the Python sources

    The repository scores a patient record with an additive ladder of
    thresholds ([calcular_risco_avancado]) that is copied into four API files,
    a simplified variant in the Streamlit dashboard
    ([calcular_risco_simulado]), and two explanation builders.

    Conventions of the embedding:
    - Python [int] is [Z]; Python [bool] is [bool]; Python [str] is [string]
      (a byte string, so an accented letter is its UTF-8 bytes);
    - Python [float] is modelled by exact rationals [Q]: every decimal literal
      of the source is the rational it denotes and [+], [-], [*], [/] are
      exact.  Equality of such numbers is [Qeq] ([==]);
    - a Python exception is [None]: the only one the scorer can raise is the
      [ZeroDivisionError] of [peso / (altura ** 2)]. *)

From Stdlib Require Import ZArith QArith Qround Qminmax Qabs Lqa Lia.
From Stdlib Require Import Bool String List Sorted Permutation DecimalString.
Import ListNotations.

Open Scope string_scope.
Open Scope Z_scope.
Open Scope Q_scope.

(** ** Python primitives *)

(** Comparisons of floats, as booleans. *)
Definition Qgeb (x y : Q) : bool := Qle_bool y x.
Definition Qleb (x y : Q) : bool := Qle_bool x y.
Definition Qgtb (x y : Q) : bool := negb (Qle_bool x y).
Definition Qltb (x y : Q) : bool := negb (Qle_bool y x).

Module PyNotations.
Notation "x >=? y" := (Qgeb x y) (at level 70, no associativity) : Q_scope.
Notation "x <=? y" := (Qleb x y) (at level 70, no associativity) : Q_scope.
Notation "x >? y" := (Qgtb x y) (at level 70, no associativity) : Q_scope.
Notation "x <? y" := (Qltb x y) (at level 70, no associativity) : Q_scope.
End PyNotations.
Import PyNotations.

(** Nearest integer, ties to the even neighbour. *)
Definition round_half_even (q : Q) : Z :=
  let f := Qfloor q in
  let r := q - inject_Z f in
  if r <? (1 # 2) then f
  else if (1 # 2) <? r then (f + 1)%Z
  else if Z.even f then f else (f + 1)%Z.

(** [round(x, ndigits)] of Python on a float: the multiple of
    [10 ** -ndigits] nearest to [x], ties to even. *)
Definition py_round (x : Q) (ndigits : Z) : Q :=
  inject_Z (round_half_even (x * 10 ^ ndigits)) / 10 ^ ndigits.

(** [abs], [min] and [max] of Python on floats are [Qabs], [Qmin], [Qmax]. *)

(** [str(n)] of a Python int. *)
Definition str_int (n : Z) : string := NilZero.string_of_int (Z.to_int n).

(** ** The request model (class [PacienteInput])

    The four API files declare the same class, field for field and bound for
    bound. *)

Record PacienteInput : Type := mkPaciente {
  idade : Z;
  genero : string;
  tipo_sanguineo : string;
  pressao_sistolica : Q;
  pressao_diastolica : Q;
  freq_cardiaca : Q;
  peso : Q;
  altura : Q;
  colesterol : Q;
  glicose : Q;
  num_medicamentos : Z;
  visitas_anuais : Z;
  dor_peito : bool;
  falta_ar : bool;
  fadiga : bool;
  tontura : bool
}.

Definition generos : list string := ["Masculino"; "Feminino"].
Definition tipos_sanguineos : list string :=
  ["A+"; "A-"; "B+"; "B-"; "AB+"; "AB-"; "O+"; "O-"].

Definition pertence (s : string) (l : list string) : bool :=
  existsb (String.eqb s) l.

(** The [Field(..., ge=, le=, pattern=)] constraints. *)
Definition campos_validos (d : PacienteInput) : bool :=
  (18 <=? idade d)%Z && (idade d <=? 120)%Z
  && pertence (genero d) generos
  && pertence (tipo_sanguineo d) tipos_sanguineos
  && (60 <=? pressao_sistolica d) && (pressao_sistolica d <=? 300)
  && (30 <=? pressao_diastolica d) && (pressao_diastolica d <=? 200)
  && (30 <=? freq_cardiaca d) && (freq_cardiaca d <=? 200)
  && (20 <=? peso d) && (peso d <=? 300)
  && (1.0 <=? altura d) && (altura d <=? 2.5)
  && (50 <=? colesterol d) && (colesterol d <=? 500)
  && (50 <=? glicose d) && (glicose d <=? 400)
  && (0 <=? num_medicamentos d)%Z && (num_medicamentos d <=? 20)%Z
  && (0 <=? visitas_anuais d)%Z && (visitas_anuais d <=? 50)%Z.

(** [validar_pressao_diastolica]: the value is rejected when
    [v >= pressao_sistolica]. *)
Definition validar_pressao_diastolica (d : PacienteInput) : bool :=
  negb (pressao_diastolica d >=? pressao_sistolica d).

(** A record that the request model accepts. *)
Definition valido (d : PacienteInput) : bool :=
  campos_validos d && validar_pressao_diastolica d.

(** The tuple [(categoria, probabilidade, score, confianca)]. *)
Definition Risco : Type := (string * Q * Q * Q)%type.

Definition categoria_de (r : Risco) : string := let '(c, _, _, _) := r in c.
Definition probabilidade_de (r : Risco) : Q := let '(_, p, _, _) := r in p.
Definition score_de (r : Risco) : Q := let '(_, _, s, _) := r in s.
Definition confianca_de (r : Risco) : Q := let '(_, _, _, c) := r in c.

(** ** Explanation records (classes [ExplicacaoSHAP], [ExplicacoesResponse]) *)

Record ExplicacaoSHAP : Type := mkExplicacao {
  fator : string;
  valor : Q;
  impacto : Q;
  interpretacao : string;
  categoria : string
}.

Record ExplicacoesResponse : Type := mkExplicacoes {
  fatores_risco : list ExplicacaoSHAP;
  fatores_protecao : list ExplicacaoSHAP;
  interpretacao_geral : string;
  recomendacoes : list string
}.

(** [lista.append(x)]. *)
Definition append {A : Type} (l : list A) (x : A) : list A := l ++ [x].

(** [lista.extend(outra)] and [lista.insert(0, x)]. *)
Definition extend {A : Type} (l l' : list A) : list A := l ++ l'.
Definition insert_0 {A : Type} (l : list A) (x : A) : list A := x :: l.

(** [lista.sort(key=..., reverse=True)]: a stable sort into descending keys.
    An element is placed before the first one whose key is not greater than
    its own, so elements with equal keys keep their order. *)
Fixpoint inserir {A : Type} (key : A -> Q) (x : A) (l : list A) : list A :=
  match l with
  | [] => [x]
  | y :: l' => if key x <? key y then y :: inserir key x l' else x :: y :: l'
  end.

Definition sort_reverse {A : Type} (key : A -> Q) (l : list A) : list A :=
  fold_right (inserir key) [] l.

(** ** The response of [/predicao] (class [PredicaoResponse]) *)

Record PredicaoResponse : Type := mkPredicao {
  categoria_risco : string;
  probabilidade : Q;
  score_risco : Q;
  confianca : Q;
  timestamp : string;
  bmi : Q;
  classificacao_bmi : string;
  classificacao_pressao : string
}.

(** The exceptions that the body of an endpoint can meet. *)
Inductive Excecao : Type := ZeroDivisionError | ValidationError.

(** What an endpoint answers: the body of a 200, or
    [HTTPException(status_code, detail)] where [detail] is built from the
    exception caught. *)
Inductive Resposta (A : Type) : Type :=
| Ok (corpo : A)
| HTTPException (status_code : Z) (e : Excecao).

Arguments Ok {A} corpo.
Arguments HTTPException {A} status_code e.

(** [PredicaoResponse(...)]: the constructor checks [ge=0, le=1] on the three
    numbers and raises a validation error otherwise. *)
Definition PredicaoResponse_novo
    (categoria_risco : string) (probabilidade score_risco confianca : Q)
    (timestamp : string) (bmi : Q)
    (classificacao_bmi classificacao_pressao : string)
  : option PredicaoResponse :=
  if (0 <=? probabilidade) && (probabilidade <=? 1)
     && (0 <=? score_risco) && (score_risco <=? 1)
     && (0 <=? confianca) && (confianca <=? 1)
  then Some (mkPredicao categoria_risco probabilidade score_risco confianca
               timestamp bmi classificacao_bmi classificacao_pressao)
  else None.

(** ** src/backend/main.py *)

Module Main.

Definition calcular_bmi (peso altura : Q) : option (Q * string) :=
  if Qeq_bool (altura ^ 2) 0 then None
  else
    let bmi := peso / (altura ^ 2) in
    let classificacao :=
      if bmi <? 18.5 then "Abaixo do peso"
      else if bmi <? 25 then "Peso normal"
      else if bmi <? 30 then "Sobrepeso"
      else if bmi <? 35 then "Obesidade Grau I"
      else if bmi <? 40 then "Obesidade Grau II"
      else "Obesidade Grau III (Morbida)" in
    Some (py_round bmi 2, classificacao).

Definition classificar_pressao (sistolica diastolica : Q) : string :=
  if (sistolica <? 120) && (diastolica <? 80) then "Normal"
  else if (sistolica <? 130) && (diastolica <? 80) then "Elevada"
  else if ((sistolica >=? 130) && (sistolica <? 140))
          || ((diastolica >=? 80) && (diastolica <? 90))
       then "Hipertensao Estagio 1"
  else if ((sistolica >=? 140) && (sistolica <? 180))
          || ((diastolica >=? 90) && (diastolica <? 120))
       then "Hipertensao Estagio 2"
  else "Crise Hipertensiva".

(** First half of [calcular_risco_avancado] (lines 157-233): the value of
    the local [score] just before [score = min(score, 1.0)]. *)
Definition soma_incrementos (dados : PacienteInput) : option Q :=
  match calcular_bmi (peso dados) (altura dados) with
  | None => None
  | Some (bmi, _) =>
    let score := 0 in
    (* 1. IDADE *)
    let score :=
      if (idade dados >=? 75)%Z then score + 0.35
      else if (idade dados >=? 65)%Z then score + 0.25
      else if (idade dados >=? 55)%Z then score + 0.20
      else if (idade dados >=? 45)%Z then score + 0.15
      else if (idade dados >=? 35)%Z then score + 0.10
      else score in
    (* 2. PRESSAO ARTERIAL *)
    let score :=
      if (pressao_sistolica dados >=? 180) || (pressao_diastolica dados >=? 120)
      then score + 0.30
      else if (pressao_sistolica dados >=? 140) || (pressao_diastolica dados >=? 90)
      then score + 0.25
      else if (pressao_sistolica dados >=? 130) || (pressao_diastolica dados >=? 80)
      then score + 0.15
      else if pressao_sistolica dados >=? 120 then score + 0.05
      else score in
    (* 3. BMI *)
    let score :=
      if bmi >=? 40 then score + 0.25
      else if bmi >=? 35 then score + 0.20
      else if bmi >=? 30 then score + 0.15
      else if bmi >=? 25 then score + 0.08
      else score in
    (* 4. PERFIL LIPIDICO *)
    let score :=
      if colesterol dados >=? 300 then score + 0.25
      else if colesterol dados >=? 240 then score + 0.20
      else if colesterol dados >=? 200 then score + 0.10
      else score in
    (* 5. GLICOSE *)
    let score :=
      if glicose dados >=? 200 then score + 0.25
      else if glicose dados >=? 126 then score + 0.20
      else if glicose dados >=? 100 then score + 0.10
      else score in
    (* 6. SINTOMAS CARDIOVASCULARES *)
    let score := if dor_peito dados then score + 0.20 else score in
    let score := if falta_ar dados then score + 0.15 else score in
    let score := if fadiga dados then score + 0.10 else score in
    let score := if tontura dados then score + 0.08 else score in
    (* 7. COMPLEXIDADE CLINICA *)
    let score :=
      if (num_medicamentos dados >=? 5)%Z then score + 0.10
      else if (num_medicamentos dados >=? 3)%Z then score + 0.05
      else score in
    let score :=
      if (visitas_anuais dados >=? 6)%Z then score + 0.08
      else if (visitas_anuais dados >=? 3)%Z then score + 0.04
      else score in
    (* MODIFICADORES POR GENERO *)
    let score :=
      if (genero dados =? "Masculino")%string then score + 0.05 else score in
    Some score
  end.

(** Second half (lines 236-253): clamp, classify, clamp the probability. *)
Definition calcular_risco_avancado (dados : PacienteInput) : option Risco :=
  match soma_incrementos dados with
  | None => None
  | Some score =>
    let score := Qmin score 1.0 in
    let '(categoria, probabilidade, confianca) :=
      if score >=? 0.75 then
        ("Alto Risco", 0.85 + (score - 0.75) * 0.6, 0.92)
      else if score >=? 0.45 then
        ("Medio Risco", 0.30 + (score - 0.45) * 1.83, 0.88)
      else
        ("Baixo Risco", score * 0.67, 0.85) in
    let probabilidade := Qmax 0.01 (Qmin 0.99 probabilidade) in
    Some (categoria, probabilidade, score, confianca)
  end.

(** The dict [resultado] that [analise_completa] passes on. *)
Record Resultado : Type := mkResultado {
  res_categoria : string;
  res_probabilidade : Q;
  res_score : Q
}.

Section Explicacoes.

(** How Python prints a float inside an f-string: [{x}] and [{x:.1f}]. *)
Variable repr_float : Q -> string.
Variable fmt_1f : Q -> string.

Definition gerar_explicacoes_shap (dados : PacienteInput) (resultado : Resultado)
  : option ExplicacoesResponse :=
  let fatores_risco := [] in
  let fatores_protecao := [] in
  match calcular_bmi (peso dados) (altura dados) with
  | None => None
  | Some (bmi, _) =>
    (* Analisar fatores de risco *)
    let fatores_risco :=
      if (idade dados >? 50)%Z then
        let impacto := inject_Z (idade dados - 50) * 0.005 in
        append fatores_risco
          (mkExplicacao "Idade" (inject_Z (idade dados)) impacto
             ("Idade de " ++ str_int (idade dados)
              ++ " anos aumenta o risco cardiovascular")
             "increase_risk")
      else fatores_risco in
    let fatores_risco :=
      if pressao_sistolica dados >? 140 then
        let impacto := (pressao_sistolica dados - 140) * 0.003 in
        append fatores_risco
          (mkExplicacao "Pressao Sistolica" (pressao_sistolica dados) impacto
             ("Hipertensao (PAS: " ++ repr_float (pressao_sistolica dados)
              ++ " mmHg) e fator de risco importante")
             "increase_risk")
      else fatores_risco in
    let fatores_risco :=
      if bmi >? 30 then
        let impacto := (bmi - 30) * 0.015 in
        append fatores_risco
          (mkExplicacao "BMI" bmi impacto
             ("Obesidade (BMI: " ++ fmt_1f bmi
              ++ ") aumenta significativamente o risco")
             "increase_risk")
      else fatores_risco in
    let fatores_risco :=
      if dor_peito dados then
        append fatores_risco
          (mkExplicacao "Dor no Peito" 1 0.20
             "Dor toracica e sintoma cardinal de risco cardiovascular"
             "increase_risk")
      else fatores_risco in
    (* Analisar fatores protetivos *)
    let fatores_protecao :=
      if (idade dados <? 40)%Z then
        append fatores_protecao
          (mkExplicacao "Idade Jovem" (inject_Z (idade dados)) (-0.05)
             ("Idade de " ++ str_int (idade dados) ++ " anos e fator protetor")
             "decrease_risk")
      else fatores_protecao in
    let fatores_protecao :=
      if (bmi >=? 18.5) && (bmi <=? 24.9) then
        append fatores_protecao
          (mkExplicacao "Peso Normal" bmi (-0.03)
             ("BMI normal (" ++ fmt_1f bmi ++ ") e fator protetor")
             "decrease_risk")
      else fatores_protecao in
    (* Gerar interpretacao geral *)
    let interpretacao_geral :=
      if (res_categoria resultado =? "Alto Risco")%string then
        "Paciente apresenta multiplos fatores de risco que elevam significativamente a probabilidade de eventos cardiovasculares. Recomenda-se avaliacao cardiologica imediata e intervencoes terapeuticas intensivas."
      else if (res_categoria resultado =? "Medio Risco")%string then
        "Paciente apresenta alguns fatores de risco que requerem monitoramento regular e intervencoes preventivas. Modificacoes no estilo de vida e acompanhamento medico sao essenciais."
      else
        "Paciente apresenta baixo risco cardiovascular atual, mas deve manter habitos preventivos e consultas regulares para monitoramento continuo." in
    (* Gerar recomendacoes *)
    let recomendacoes := [] in
    let recomendacoes :=
      if pressao_sistolica dados >? 140 then
        append recomendacoes "🩺 Controle rigoroso da hipertensao arterial com medicacao otimizada"
      else recomendacoes in
    let recomendacoes :=
      if bmi >? 30 then
        append recomendacoes "⚖️ Programa estruturado de reducao de peso com nutricionalista"
      else recomendacoes in
    let recomendacoes :=
      if dor_peito dados then
        append recomendacoes "🚨 Investigacao cardiologica imediata com ECG e marcadores cardiacos"
      else recomendacoes in
    let recomendacoes :=
      if colesterol dados >? 240 then
        append recomendacoes "💊 Tratamento da dislipidemia com estatinas conforme protocolo"
      else recomendacoes in
    let recomendacoes :=
      if glicose dados >? 126 then
        append recomendacoes "🍎 Controle glicemico rigoroso e avaliacao endocrinologica"
      else recomendacoes in
    let recomendacoes :=
      match recomendacoes with
      | [] => ["✅ Manter habitos saudaveis e consultas preventivas regulares"]
      | _ :: _ => recomendacoes
      end in
    Some (mkExplicacoes fatores_risco fatores_protecao interpretacao_geral
            recomendacoes)
  end.

End Explicacoes.

(** [fazer_predicao] (lines 381-406), on a request that passed validation.
    [agora] is the text of [datetime.now().isoformat()]. *)
Definition fazer_predicao (agora : string) (dados : PacienteInput)
  : Resposta PredicaoResponse :=
  match calcular_bmi (peso dados) (altura dados) with
  | None => HTTPException 500 ZeroDivisionError
  | Some (bmi, classificacao_bmi) =>
    let classificacao_pressao :=
      classificar_pressao (pressao_sistolica dados) (pressao_diastolica dados) in
    match calcular_risco_avancado dados with
    | None => HTTPException 500 ZeroDivisionError
    | Some (categoria, probabilidade, score, confianca) =>
      match PredicaoResponse_novo categoria (py_round probabilidade 4)
              (py_round score 4) (py_round confianca 3) agora bmi
              classificacao_bmi classificacao_pressao with
      | None => HTTPException 500 ValidationError
      | Some resposta => Ok resposta
      end
    end
  end.

End Main.

(** ** src/api_medica_final.py *)

Module Final.

Definition calcular_bmi (peso altura : Q) : option (Q * string) :=
  if Qeq_bool (altura ^ 2) 0 then None
  else
    let bmi := peso / (altura ^ 2) in
    let classificacao :=
      if bmi <? 18.5 then "Abaixo do peso"
      else if bmi <? 25 then "Peso normal"
      else if bmi <? 30 then "Sobrepeso"
      else if bmi <? 35 then "Obesidade Grau I"
      else if bmi <? 40 then "Obesidade Grau II"
      else "Obesidade Grau III (Morbida)" in
    Some (py_round bmi 2, classificacao).

Definition classificar_pressao (sistolica diastolica : Q) : string :=
  if (sistolica <? 120) && (diastolica <? 80) then "Normal"
  else if (sistolica <? 130) && (diastolica <? 80) then "Elevada"
  else if ((sistolica >=? 130) && (sistolica <? 140))
          || ((diastolica >=? 80) && (diastolica <? 90))
       then "Hipertensao Estagio 1"
  else if ((sistolica >=? 140) && (sistolica <? 180))
          || ((diastolica >=? 90) && (diastolica <? 120))
       then "Hipertensao Estagio 2"
  else "Crise Hipertensiva".

(** First half of [calcular_risco_avancado] (lines 171-247): the value of
    the local [score] just before [score = min(score, 1.0)]. *)
Definition soma_incrementos (dados : PacienteInput) : option Q :=
  match calcular_bmi (peso dados) (altura dados) with
  | None => None
  | Some (bmi, _) =>
    let score := 0 in
    (* 1. IDADE *)
    let score :=
      if (idade dados >=? 75)%Z then score + 0.35
      else if (idade dados >=? 65)%Z then score + 0.25
      else if (idade dados >=? 55)%Z then score + 0.20
      else if (idade dados >=? 45)%Z then score + 0.15
      else if (idade dados >=? 35)%Z then score + 0.10
      else score in
    (* 2. PRESSAO ARTERIAL *)
    let score :=
      if (pressao_sistolica dados >=? 180) || (pressao_diastolica dados >=? 120)
      then score + 0.30
      else if (pressao_sistolica dados >=? 140) || (pressao_diastolica dados >=? 90)
      then score + 0.25
      else if (pressao_sistolica dados >=? 130) || (pressao_diastolica dados >=? 80)
      then score + 0.15
      else if pressao_sistolica dados >=? 120 then score + 0.05
      else score in
    (* 3. BMI *)
    let score :=
      if bmi >=? 40 then score + 0.25
      else if bmi >=? 35 then score + 0.20
      else if bmi >=? 30 then score + 0.15
      else if bmi >=? 25 then score + 0.08
      else score in
    (* 4. PERFIL LIPIDICO *)
    let score :=
      if colesterol dados >=? 300 then score + 0.25
      else if colesterol dados >=? 240 then score + 0.20
      else if colesterol dados >=? 200 then score + 0.10
      else score in
    (* 5. GLICOSE *)
    let score :=
      if glicose dados >=? 200 then score + 0.25
      else if glicose dados >=? 126 then score + 0.20
      else if glicose dados >=? 100 then score + 0.10
      else score in
    (* 6. SINTOMAS CARDIOVASCULARES *)
    let score := if dor_peito dados then score + 0.20 else score in
    let score := if falta_ar dados then score + 0.15 else score in
    let score := if fadiga dados then score + 0.10 else score in
    let score := if tontura dados then score + 0.08 else score in
    (* 7. COMPLEXIDADE CLINICA *)
    let score :=
      if (num_medicamentos dados >=? 5)%Z then score + 0.10
      else if (num_medicamentos dados >=? 3)%Z then score + 0.05
      else score in
    let score :=
      if (visitas_anuais dados >=? 6)%Z then score + 0.08
      else if (visitas_anuais dados >=? 3)%Z then score + 0.04
      else score in
    (* MODIFICADORES POR GENERO *)
    let score :=
      if (genero dados =? "Masculino")%string then score + 0.05 else score in
    Some score
  end.

(** Second half (lines 252-272): clamp, classify, clamp the probability. *)
Definition calcular_risco_avancado (dados : PacienteInput) : option Risco :=
  match soma_incrementos dados with
  | None => None
  | Some score =>
    let score := Qmin score 1.0 in
    let '(categoria, probabilidade, confianca) :=
      if score >=? 0.75 then
        ("Alto Risco", 0.85 + (score - 0.75) * 0.6, 0.92)
      else if score >=? 0.45 then
        ("Medio Risco", 0.30 + (score - 0.45) * 1.83, 0.88)
      else
        ("Baixo Risco", score * 0.67, 0.85) in
    let probabilidade := Qmax 0.01 (Qmin 0.99 probabilidade) in
    Some (categoria, probabilidade, score, confianca)
  end.

End Final.

(** ** src/api_medica_corrigida.py *)

Module Corrigida.

Definition calcular_bmi (peso altura : Q) : option (Q * string) :=
  if Qeq_bool (altura ^ 2) 0 then None
  else
    let bmi := peso / (altura ^ 2) in
    let classificacao :=
      if bmi <? 18.5 then "Abaixo do peso"
      else if bmi <? 25 then "Peso normal"
      else if bmi <? 30 then "Sobrepeso"
      else if bmi <? 35 then "Obesidade Grau I"
      else if bmi <? 40 then "Obesidade Grau II"
      else "Obesidade Grau III (Mórbida)" in
    Some (py_round bmi 2, classificacao).

Definition classificar_pressao (sistolica diastolica : Q) : string :=
  if (sistolica <? 120) && (diastolica <? 80) then "Normal"
  else if (sistolica <? 130) && (diastolica <? 80) then "Elevada"
  else if ((sistolica >=? 130) && (sistolica <? 140))
          || ((diastolica >=? 80) && (diastolica <? 90))
       then "Hipertensão Estágio 1"
  else if ((sistolica >=? 140) && (sistolica <? 180))
          || ((diastolica >=? 90) && (diastolica <? 120))
       then "Hipertensão Estágio 2"
  else "Crise Hipertensiva".

(** First half of [calcular_risco_avancado] (lines 176-252): the value of
    the local [score] just before [score = min(score, 1.0)]. *)
Definition soma_incrementos (dados : PacienteInput) : option Q :=
  match calcular_bmi (peso dados) (altura dados) with
  | None => None
  | Some (bmi, _) =>
    let score := 0 in
    (* 1. IDADE *)
    let score :=
      if (idade dados >=? 75)%Z then score + 0.35
      else if (idade dados >=? 65)%Z then score + 0.25
      else if (idade dados >=? 55)%Z then score + 0.20
      else if (idade dados >=? 45)%Z then score + 0.15
      else if (idade dados >=? 35)%Z then score + 0.10
      else score in
    (* 2. PRESSAO ARTERIAL *)
    let score :=
      if (pressao_sistolica dados >=? 180) || (pressao_diastolica dados >=? 120)
      then score + 0.30
      else if (pressao_sistolica dados >=? 140) || (pressao_diastolica dados >=? 90)
      then score + 0.25
      else if (pressao_sistolica dados >=? 130) || (pressao_diastolica dados >=? 80)
      then score + 0.15
      else if pressao_sistolica dados >=? 120 then score + 0.05
      else score in
    (* 3. BMI *)
    let score :=
      if bmi >=? 40 then score + 0.25
      else if bmi >=? 35 then score + 0.20
      else if bmi >=? 30 then score + 0.15
      else if bmi >=? 25 then score + 0.08
      else score in
    (* 4. PERFIL LIPIDICO *)
    let score :=
      if colesterol dados >=? 300 then score + 0.25
      else if colesterol dados >=? 240 then score + 0.20
      else if colesterol dados >=? 200 then score + 0.10
      else score in
    (* 5. GLICOSE *)
    let score :=
      if glicose dados >=? 200 then score + 0.25
      else if glicose dados >=? 126 then score + 0.20
      else if glicose dados >=? 100 then score + 0.10
      else score in
    (* 6. SINTOMAS CARDIOVASCULARES *)
    let score := if dor_peito dados then score + 0.20 else score in
    let score := if falta_ar dados then score + 0.15 else score in
    let score := if fadiga dados then score + 0.10 else score in
    let score := if tontura dados then score + 0.08 else score in
    (* 7. COMPLEXIDADE CLINICA *)
    let score :=
      if (num_medicamentos dados >=? 5)%Z then score + 0.10
      else if (num_medicamentos dados >=? 3)%Z then score + 0.05
      else score in
    let score :=
      if (visitas_anuais dados >=? 6)%Z then score + 0.08
      else if (visitas_anuais dados >=? 3)%Z then score + 0.04
      else score in
    (* MODIFICADORES POR GENERO *)
    let score :=
      if (genero dados =? "Masculino")%string then score + 0.05 else score in
    Some score
  end.

(** Second half (lines 257-277): clamp, classify, clamp the probability. *)
Definition calcular_risco_avancado (dados : PacienteInput) : option Risco :=
  match soma_incrementos dados with
  | None => None
  | Some score =>
    let score := Qmin score 1.0 in
    let '(categoria, probabilidade, confianca) :=
      if score >=? 0.75 then
        ("Alto Risco", 0.85 + (score - 0.75) * 0.6, 0.92)
      else if score >=? 0.45 then
        ("Médio Risco", 0.30 + (score - 0.45) * 1.83, 0.88)
      else
        ("Baixo Risco", score * 0.67, 0.85) in
    let probabilidade := Qmax 0.01 (Qmin 0.99 probabilidade) in
    Some (categoria, probabilidade, score, confianca)
  end.

Section Explicacoes.

(** How Python prints a float inside an f-string: [{x}]. *)
Variable repr_float : Q -> string.

(** [gerar_explicacoes_detalhadas] (lines 279-474), restricted to the two
    lists of the response, [fatores_risco[:5]] and [fatores_protecao[:3]].
    The arguments [categoria] and [score] feed only the two text fields of
    the response ([interpretacao_geral], [recomendacoes]), which are left
    out. *)
Definition gerar_explicacoes_detalhadas
    (dados : PacienteInput) (categoria : string) (score : Q)
  : option (list ExplicacaoSHAP * list ExplicacaoSHAP) :=
  match calcular_bmi (peso dados) (altura dados) with
  | None => None
  | Some (bmi, bmi_class) =>
    let classificacao_pressao :=
      classificar_pressao (pressao_sistolica dados) (pressao_diastolica dados) in
    let fatores_risco := [] in
    let fatores_protecao := [] in
    (* 1. IDADE *)
    let '(fatores_risco, fatores_protecao) :=
      if (idade dados >=? 65)%Z then
        let impacto := 0.25 + inject_Z (idade dados - 65) * 0.01 in
        (append fatores_risco
           (mkExplicacao "Idade Avançada" (inject_Z (idade dados))
              (py_round impacto 3)
              ("Idade de " ++ str_int (idade dados)
               ++ " anos representa fator de risco cardiovascular significativo")
              "increase_risk"),
         fatores_protecao)
      else if (idade dados >=? 45)%Z then
        let impacto := 0.10 + inject_Z (idade dados - 45) * 0.005 in
        (append fatores_risco
           (mkExplicacao "Idade Intermediária" (inject_Z (idade dados))
              (py_round impacto 3)
              ("Idade de " ++ str_int (idade dados)
               ++ " anos é fator de risco moderado")
              "increase_risk"),
         fatores_protecao)
      else
        (fatores_risco,
         append fatores_protecao
           (mkExplicacao "Idade Jovem" (inject_Z (idade dados)) (-0.05)
              ("Idade jovem (" ++ str_int (idade dados)
               ++ " anos) é fator protetor")
              "decrease_risk")) in
    (* 2. PRESSAO ARTERIAL *)
    let '(fatores_risco, fatores_protecao) :=
      if pertence classificacao_pressao
           ["Hipertensão Estágio 2"; "Crise Hipertensiva"] then
        let impacto := 0.25 + (pressao_sistolica dados - 140) * 0.002 in
        (append fatores_risco
           (mkExplicacao "Hipertensão Severa" (pressao_sistolica dados)
              (py_round impacto 3)
              (classificacao_pressao ++ ": "
               ++ repr_float (pressao_sistolica dados) ++ "/"
               ++ repr_float (pressao_diastolica dados) ++ " mmHg")
              "increase_risk"),
         fatores_protecao)
      else if (classificacao_pressao =? "Hipertensão Estágio 1")%string then
        let impacto := 0.15 in
        (append fatores_risco
           (mkExplicacao "Hipertensão Leve" (pressao_sistolica dados) impacto
              ("Hipertensão estágio 1: "
               ++ repr_float (pressao_sistolica dados) ++ "/"
               ++ repr_float (pressao_diastolica dados) ++ " mmHg")
              "increase_risk"),
         fatores_protecao)
      else if (classificacao_pressao =? "Normal")%string then
        (fatores_risco,
         append fatores_protecao
           (mkExplicacao "Pressão Normal" (pressao_sistolica dados) (-0.05)
              ("Pressão arterial normal: "
               ++ repr_float (pressao_sistolica dados) ++ "/"
               ++ repr_float (pressao_diastolica dados) ++ " mmHg")
              "decrease_risk"))
      else (fatores_risco, fatores_protecao) in
    (* 3. BMI E OBESIDADE *)
    let '(fatores_risco, fatores_protecao) :=
      if bmi >=? 30 then
        let impacto := 0.15 + (bmi - 30) * 0.01 in
        (append fatores_risco
           (mkExplicacao "Obesidade" bmi (py_round impacto 3)
              (bmi_class ++ ": BMI " ++ repr_float bmi
               ++ " kg/m² aumenta risco cardiovascular")
              "increase_risk"),
         fatores_protecao)
      else if bmi >=? 25 then
        let impacto := 0.08 in
        (append fatores_risco
           (mkExplicacao "Sobrepeso" bmi impacto
              ("Sobrepeso: BMI " ++ repr_float bmi
               ++ " kg/m² é fator de risco moderado")
              "increase_risk"),
         fatores_protecao)
      else if bmi >=? 18.5 then
        (fatores_risco,
         append fatores_protecao
           (mkExplicacao "Peso Normal" bmi (-0.03)
              ("BMI normal (" ++ repr_float bmi ++ " kg/m²) é fator protetor")
              "decrease_risk"))
      else (fatores_risco, fatores_protecao) in
    (* 4. PERFIL LIPIDICO *)
    let fatores_risco :=
      if colesterol dados >=? 240 then
        let impacto := 0.20 + (colesterol dados - 240) * 0.0005 in
        append fatores_risco
          (mkExplicacao "Colesterol Muito Alto" (colesterol dados)
             (py_round impacto 3)
             ("Colesterol total " ++ repr_float (colesterol dados)
              ++ " mg/dL - dislipidemia significativa")
             "increase_risk")
      else if colesterol dados >=? 200 then
        let impacto := 0.10 in
        append fatores_risco
          (mkExplicacao "Colesterol Elevado" (colesterol dados) impacto
             ("Colesterol " ++ repr_float (colesterol dados)
              ++ " mg/dL acima do ideal (<200)")
             "increase_risk")
      else fatores_risco in
    (* 5. GLICOSE *)
    let fatores_risco :=
      if glicose dados >=? 126 then
        let impacto := 0.20 + (glicose dados - 126) * 0.001 in
        append fatores_risco
          (mkExplicacao "Diabetes" (glicose dados) (py_round impacto 3)
             ("Glicose " ++ repr_float (glicose dados)
              ++ " mg/dL sugere diabetes mellitus")
             "increase_risk")
      else if glicose dados >=? 100 then
        let impacto := 0.10 in
        append fatores_risco
          (mkExplicacao "Pré-diabetes" (glicose dados) impacto
             ("Glicose " ++ repr_float (glicose dados)
              ++ " mg/dL indica pré-diabetes")
             "increase_risk")
      else fatores_risco in
    (* 6. SINTOMAS CARDIOVASCULARES *)
    let fatores_risco :=
      if dor_peito dados then
        append fatores_risco
          (mkExplicacao "Dor Torácica" 1 0.20
             "Dor no peito é sintoma cardinal de doença cardiovascular"
             "increase_risk")
      else fatores_risco in
    let fatores_risco :=
      if falta_ar dados then
        append fatores_risco
          (mkExplicacao "Dispneia" 1 0.15
             "Falta de ar pode indicar insuficiência cardíaca ou isquemia"
             "increase_risk")
      else fatores_risco in
    let fatores_risco :=
      if fadiga dados then
        append fatores_risco
          (mkExplicacao "Fadiga" 1 0.10
             "Fadiga pode ser sinal de disfunção cardiovascular"
             "increase_risk")
      else fatores_risco in
    (* Ordenar por impacto *)
    let fatores_risco := sort_reverse impacto fatores_risco in
    let fatores_protecao :=
      sort_reverse (fun x => Qabs (impacto x)) fatores_protecao in
    Some (firstn 5 fatores_risco, firstn 3 fatores_protecao)
  end.

End Explicacoes.

(** [gerar_recomendacoes_personalizadas] (lines 476-563). *)
Definition gerar_recomendacoes_personalizadas
    (categoria : string) (dados : PacienteInput) (bmi : Q)
    (classificacao_pressao : string) : list string :=
  let recomendacoes := [] in
  (* RECOMENDACOES POR CATEGORIA DE RISCO *)
  let recomendacoes :=
    if (categoria =? "Alto Risco")%string then
      extend recomendacoes
        ["🚨 URGENTE: Consulta cardiológica nas próximas 24-48h";
         "📋 ECG de 12 derivações e ecocardiograma imediatos";
         "🩸 Troponina, BNP/NT-proBNP, D-dímero urgentes";
         "💊 Revisar e otimizar medicações cardiovasculares";
         "🏥 Considerar hospitalização se sintomas graves"]
    else if (categoria =? "Médio Risco")%string then
      extend recomendacoes
        ["👨‍⚕️ Consulta cardiológica em 2-4 semanas";
         "📊 Perfil lipídico completo, HbA1c, função renal";
         "🔍 Teste ergométrico ou cintilografia miocárdica";
         "💊 Iniciar/otimizar estatina se indicado";
         "📱 Monitoramento domiciliar da pressão arterial"]
    else
      extend recomendacoes
        ["👨‍⚕️ Check-up cardiológico anual";
         "📊 Perfil lipídico e glicemia anuais";
         "🏃‍♂️ Atividade física regular (150min/semana)";
         "🥗 Dieta mediterrânea ou DASH";
         "🚭 Cessação do tabagismo se aplicável"] in
  (* Hipertensao *)
  let recomendacoes :=
    if pertence classificacao_pressao
         ["Hipertensão Estágio 1"; "Hipertensão Estágio 2"]
    then
      extend recomendacoes
        ["🩺 Monitoramento PA domiciliar (MAPA se possível)";
         "🧂 Redução sódio <2g/dia, aumentar potássio";
         "💊 Otimizar anti-hipertensivos (IECA/BRA + diurético)"]
    else recomendacoes in
  let recomendacoes :=
    if (classificacao_pressao =? "Crise Hipertensiva")%string
    then insert_0 recomendacoes
           "🚨 EMERGÊNCIA: Atendimento imediato - risco de AVC/IAM"
    else recomendacoes in
  (* Obesidade/Sobrepeso *)
  let recomendacoes :=
    if bmi >=? 30 then
      extend recomendacoes
        ["⚖️ Meta: perda 5-10% peso em 6 meses";
         "👥 Acompanhamento nutricional multidisciplinar";
         "🏃‍♂️ Exercícios combinados (aeróbio + resistência)";
         "💊 Considerar medicação anti-obesidade se indicado"]
    else if bmi >=? 25 then
      append recomendacoes "⚖️ Meta: redução 3-5kg, manter IMC <25"
    else recomendacoes in
  (* Dislipidemia *)
  let recomendacoes :=
    if colesterol dados >=? 240 then
      extend recomendacoes
        ["💊 Estatina alta intensidade + ezetimiba";
         "🥗 Dieta baixa em gordura saturada (<7% cal)";
         "📊 Meta: LDL <70mg/dL (ou <55mg/dL se alto risco)"]
    else if colesterol dados >=? 200 then
      append recomendacoes "💊 Considerar estatina + mudanças dietéticas"
    else recomendacoes in
  (* Diabetes/Pre-diabetes *)
  let recomendacoes :=
    if glicose dados >=? 126 then
      extend recomendacoes
        ["🍎 HbA1c meta <7% (individualizar se necessário)";
         "💊 Metformina + SGLT2i ou GLP1-RA se risco CV";
         "👁️ Fundo de olho anual, microalbuminúria"]
    else if glicose dados >=? 100 then
      append recomendacoes
        "🍎 Programa prevenção diabetes (perda peso + exercício)"
    else recomendacoes in
  (* Sintomas especificos *)
  let recomendacoes :=
    if dor_peito dados
    then insert_0 recomendacoes
           "💔 INVESTIGAR dor torácica: ECG, troponina, considerar cateterismo"
    else recomendacoes in
  let recomendacoes :=
    if falta_ar dados
    then append recomendacoes "🫁 Ecocardiograma + BNP para investigar IC"
    else recomendacoes in
  (* Polifarmacia *)
  let recomendacoes :=
    if (num_medicamentos dados >=? 5)%Z
    then append recomendacoes
           "💊 Revisão medicamentosa: desprescrição e interações"
    else recomendacoes in
  firstn 8 recomendacoes.

End Corrigida.

(** ** src/api_medica_windows.py *)

Module Windows.

Definition calcular_bmi (peso altura : Q) : option (Q * string) :=
  if Qeq_bool (altura ^ 2) 0 then None
  else
    let bmi := peso / (altura ^ 2) in
    let classificacao :=
      if bmi <? 18.5 then "Abaixo do peso"
      else if bmi <? 25 then "Peso normal"
      else if bmi <? 30 then "Sobrepeso"
      else if bmi <? 35 then "Obesidade Grau I"
      else if bmi <? 40 then "Obesidade Grau II"
      else "Obesidade Grau III (Morbida)" in
    Some (py_round bmi 2, classificacao).

Definition classificar_pressao (sistolica diastolica : Q) : string :=
  if (sistolica <? 120) && (diastolica <? 80) then "Normal"
  else if (sistolica <? 130) && (diastolica <? 80) then "Elevada"
  else if ((sistolica >=? 130) && (sistolica <? 140))
          || ((diastolica >=? 80) && (diastolica <? 90))
       then "Hipertensao Estagio 1"
  else if ((sistolica >=? 140) && (sistolica <? 180))
          || ((diastolica >=? 90) && (diastolica <? 120))
       then "Hipertensao Estagio 2"
  else "Crise Hipertensiva".

(** First half of [calcular_risco_avancado] (lines 121-193): the value of
    the local [score] just before [score = min(score, 1.0)]. *)
Definition soma_incrementos (dados : PacienteInput) : option Q :=
  match calcular_bmi (peso dados) (altura dados) with
  | None => None
  | Some (bmi, _) =>
    let score := 0 in
    (* 1. IDADE *)
    let score :=
      if (idade dados >=? 75)%Z then score + 0.35
      else if (idade dados >=? 65)%Z then score + 0.25
      else if (idade dados >=? 55)%Z then score + 0.20
      else if (idade dados >=? 45)%Z then score + 0.15
      else if (idade dados >=? 35)%Z then score + 0.10
      else score in
    (* 2. PRESSAO ARTERIAL *)
    let score :=
      if (pressao_sistolica dados >=? 180) || (pressao_diastolica dados >=? 120)
      then score + 0.30
      else if (pressao_sistolica dados >=? 140) || (pressao_diastolica dados >=? 90)
      then score + 0.25
      else if (pressao_sistolica dados >=? 130) || (pressao_diastolica dados >=? 80)
      then score + 0.15
      else if pressao_sistolica dados >=? 120 then score + 0.05
      else score in
    (* 3. BMI *)
    let score :=
      if bmi >=? 40 then score + 0.25
      else if bmi >=? 35 then score + 0.20
      else if bmi >=? 30 then score + 0.15
      else if bmi >=? 25 then score + 0.08
      else score in
    (* 4. PERFIL LIPIDICO *)
    let score :=
      if colesterol dados >=? 300 then score + 0.25
      else if colesterol dados >=? 240 then score + 0.20
      else if colesterol dados >=? 200 then score + 0.10
      else score in
    (* 5. GLICOSE *)
    let score :=
      if glicose dados >=? 200 then score + 0.25
      else if glicose dados >=? 126 then score + 0.20
      else if glicose dados >=? 100 then score + 0.10
      else score in
    (* 6. SINTOMAS CARDIOVASCULARES *)
    let score := if dor_peito dados then score + 0.20 else score in
    let score := if falta_ar dados then score + 0.15 else score in
    let score := if fadiga dados then score + 0.10 else score in
    let score := if tontura dados then score + 0.08 else score in
    (* 7. COMPLEXIDADE CLINICA *)
    let score :=
      if (num_medicamentos dados >=? 5)%Z then score + 0.10
      else if (num_medicamentos dados >=? 3)%Z then score + 0.05
      else score in
    let score :=
      if (visitas_anuais dados >=? 6)%Z then score + 0.08
      else if (visitas_anuais dados >=? 3)%Z then score + 0.04
      else score in
    (* MODIFICADORES POR GENERO *)
    let score :=
      if (genero dados =? "Masculino")%string then score + 0.05 else score in
    Some score
  end.

(** Second half (lines 196-215): clamp, classify, clamp the probability. *)
Definition calcular_risco_avancado (dados : PacienteInput) : option Risco :=
  match soma_incrementos dados with
  | None => None
  | Some score =>
    let score := Qmin score 1.0 in
    let '(categoria, probabilidade, confianca) :=
      if score >=? 0.75 then
        ("Alto Risco", 0.85 + (score - 0.75) * 0.6, 0.92)
      else if score >=? 0.45 then
        ("Medio Risco", 0.30 + (score - 0.45) * 1.83, 0.88)
      else
        ("Baixo Risco", score * 0.67, 0.85) in
    let probabilidade := Qmax 0.01 (Qmin 0.99 probabilidade) in
    Some (categoria, probabilidade, score, confianca)
  end.

Section Explicacoes.

(** How Python prints a float inside an f-string: [{x}]. *)
Variable repr_float : Q -> string.

(** [gerar_explicacoes_detalhadas] (lines 217-347), restricted to the two
    lists of the response, [fatores_risco[:5]] and [fatores_protecao[:3]].
    The arguments [categoria] and [score] feed only the two text fields of
    the response ([interpretacao_geral], [recomendacoes]), which are left
    out. *)
Definition gerar_explicacoes_detalhadas
    (dados : PacienteInput) (categoria : string) (score : Q)
  : option (list ExplicacaoSHAP * list ExplicacaoSHAP) :=
  match calcular_bmi (peso dados) (altura dados) with
  | None => None
  | Some (bmi, bmi_class) =>
    let classificacao_pressao :=
      classificar_pressao (pressao_sistolica dados) (pressao_diastolica dados) in
    let fatores_risco := [] in
    let fatores_protecao := [] in
    (* 1. IDADE *)
    let '(fatores_risco, fatores_protecao) :=
      if (idade dados >=? 65)%Z then
        let impacto := 0.25 + inject_Z (idade dados - 65) * 0.01 in
        (append fatores_risco
           (mkExplicacao "Idade Avancada" (inject_Z (idade dados))
              (py_round impacto 3)
              ("Idade de " ++ str_int (idade dados)
               ++ " anos representa fator de risco cardiovascular significativo")
              "increase_risk"),
         fatores_protecao)
      else if (idade dados >=? 45)%Z then
        let impacto := 0.10 + inject_Z (idade dados - 45) * 0.005 in
        (append fatores_risco
           (mkExplicacao "Idade Intermediaria" (inject_Z (idade dados))
              (py_round impacto 3)
              ("Idade de " ++ str_int (idade dados)
               ++ " anos e fator de risco moderado")
              "increase_risk"),
         fatores_protecao)
      else
        (fatores_risco,
         append fatores_protecao
           (mkExplicacao "Idade Jovem" (inject_Z (idade dados)) (-0.05)
              ("Idade jovem (" ++ str_int (idade dados)
               ++ " anos) e fator protetor")
              "decrease_risk")) in
    (* 2. PRESSAO ARTERIAL *)
    let '(fatores_risco, fatores_protecao) :=
      if pertence classificacao_pressao
           ["Hipertensao Estagio 2"; "Crise Hipertensiva"] then
        let impacto := 0.25 + (pressao_sistolica dados - 140) * 0.002 in
        (append fatores_risco
           (mkExplicacao "Hipertensao Severa" (pressao_sistolica dados)
              (py_round impacto 3)
              (classificacao_pressao ++ ": "
               ++ repr_float (pressao_sistolica dados) ++ "/"
               ++ repr_float (pressao_diastolica dados) ++ " mmHg")
              "increase_risk"),
         fatores_protecao)
      else if (classificacao_pressao =? "Hipertensao Estagio 1")%string then
        let impacto := 0.15 in
        (append fatores_risco
           (mkExplicacao "Hipertensao Leve" (pressao_sistolica dados) impacto
              ("Hipertensao estagio 1: "
               ++ repr_float (pressao_sistolica dados) ++ "/"
               ++ repr_float (pressao_diastolica dados) ++ " mmHg")
              "increase_risk"),
         fatores_protecao)
      else if (classificacao_pressao =? "Normal")%string then
        (fatores_risco,
         append fatores_protecao
           (mkExplicacao "Pressao Normal" (pressao_sistolica dados) (-0.05)
              ("Pressao arterial normal: "
               ++ repr_float (pressao_sistolica dados) ++ "/"
               ++ repr_float (pressao_diastolica dados) ++ " mmHg")
              "decrease_risk"))
      else (fatores_risco, fatores_protecao) in
    (* 3. BMI E OBESIDADE *)
    let '(fatores_risco, fatores_protecao) :=
      if bmi >=? 30 then
        let impacto := 0.15 + (bmi - 30) * 0.01 in
        (append fatores_risco
           (mkExplicacao "Obesidade" bmi (py_round impacto 3)
              (bmi_class ++ ": BMI " ++ repr_float bmi
               ++ " kg/m2 aumenta risco cardiovascular")
              "increase_risk"),
         fatores_protecao)
      else if bmi >=? 25 then
        let impacto := 0.08 in
        (append fatores_risco
           (mkExplicacao "Sobrepeso" bmi impacto
              ("Sobrepeso: BMI " ++ repr_float bmi
               ++ " kg/m2 e fator de risco moderado")
              "increase_risk"),
         fatores_protecao)
      else if bmi >=? 18.5 then
        (fatores_risco,
         append fatores_protecao
           (mkExplicacao "Peso Normal" bmi (-0.03)
              ("BMI normal (" ++ repr_float bmi ++ " kg/m2) e fator protetor")
              "decrease_risk"))
      else (fatores_risco, fatores_protecao) in
    (* Sintomas cardiovasculares *)
    let fatores_risco :=
      if dor_peito dados then
        append fatores_risco
          (mkExplicacao "Dor Toracica" 1 0.20
             "Dor no peito e sintoma cardinal de doenca cardiovascular"
             "increase_risk")
      else fatores_risco in
    let fatores_risco :=
      if falta_ar dados then
        append fatores_risco
          (mkExplicacao "Dispneia" 1 0.15
             "Falta de ar pode indicar insuficiencia cardiaca ou isquemia"
             "increase_risk")
      else fatores_risco in
    (* Ordenar por impacto *)
    let fatores_risco := sort_reverse impacto fatores_risco in
    let fatores_protecao :=
      sort_reverse (fun x => Qabs (impacto x)) fatores_protecao in
    Some (firstn 5 fatores_risco, firstn 3 fatores_protecao)
  end.

End Explicacoes.

(** [gerar_recomendacoes_personalizadas] (lines 349-387). *)
Definition gerar_recomendacoes_personalizadas
    (categoria : string) (dados : PacienteInput) (bmi : Q)
    (classificacao_pressao : string) : list string :=
  let recomendacoes := [] in
  let recomendacoes :=
    if (categoria =? "Alto Risco")%string then
      extend recomendacoes
        ["URGENTE: Consulta cardiologica nas proximas 24-48h";
         "ECG de 12 derivacoes e ecocardiograma imediatos";
         "Troponina, BNP/NT-proBNP, D-dimero urgentes";
         "Revisar e otimizar medicacoes cardiovasculares"]
    else if (categoria =? "Medio Risco")%string then
      extend recomendacoes
        ["Consulta cardiologica em 2-4 semanas";
         "Perfil lipidico completo, HbA1c, funcao renal";
         "Teste ergometrico ou cintilografia miocardica";
         "Monitoramento domiciliar da pressao arterial"]
    else
      extend recomendacoes
        ["Check-up cardiologico anual";
         "Perfil lipidico e glicemia anuais";
         "Atividade fisica regular (150min/semana)";
         "Dieta mediterranea ou DASH"] in
  (* Recomendacoes especificas *)
  let recomendacoes :=
    if pertence classificacao_pressao
         ["Hipertensao Estagio 1"; "Hipertensao Estagio 2"]
    then append recomendacoes "Monitoramento PA domiciliar"
    else recomendacoes in
  let recomendacoes :=
    if bmi >=? 30
    then append recomendacoes "Meta: perda 5-10% peso em 6 meses"
    else recomendacoes in
  let recomendacoes :=
    if colesterol dados >=? 240
    then append recomendacoes "Estatina alta intensidade + ezetimiba"
    else recomendacoes in
  let recomendacoes :=
    if dor_peito dados
    then insert_0 recomendacoes "INVESTIGAR dor toracica: ECG, troponina"
    else recomendacoes in
  firstn 8 recomendacoes.

End Windows.

(** ** src/dashboard_medico.py *)

Module Dashboard.

(** The dict [st.session_state.paciente_data].  The integer widgets
    ([slider], [number_input] with integer bounds) yield Python ints and the
    check boxes are stored through [int(...)]. *)
Record DadosPaciente : Type := mkDados {
  idade : Z;
  genero : string;
  tipo_sanguineo : string;
  pressao_sistolica : Z;
  pressao_diastolica : Z;
  freq_cardiaca : Z;
  bmi : Q;
  colesterol : Z;
  glicose : Z;
  num_medicamentos : Z;
  visitas_anuais : Z;
  dor_peito : Z;
  falta_ar : Z;
  fadiga : Z;
  tontura : Z
}.

(** The dict that [calcular_risco_simulado] returns. *)
Record ResultadoSimulado : Type := mkSimulado {
  categoria : string;
  probabilidade : Q;
  score : Q;
  cor : string
}.

(** [sidebar_entrada_dados] (lines 83-155): from the values of the widgets
    to the stored dict. *)
Definition paciente_data
    (idade : Z) (genero tipo_sanguineo : string)
    (pressao_sistolica pressao_diastolica freq_cardiaca : Z)
    (peso altura : Q)
    (colesterol glicose num_medicamentos visitas_anuais : Z)
    (dor_peito falta_ar fadiga tontura : bool) : option DadosPaciente :=
  if Qeq_bool (altura ^ 2) 0 then None
  else
    let bmi := peso / (altura ^ 2) in
    Some {| idade := idade;
            genero := genero;
            tipo_sanguineo := tipo_sanguineo;
            pressao_sistolica := pressao_sistolica;
            pressao_diastolica := pressao_diastolica;
            freq_cardiaca := freq_cardiaca;
            bmi := bmi;
            colesterol := colesterol;
            glicose := glicose;
            num_medicamentos := num_medicamentos;
            visitas_anuais := visitas_anuais;
            dor_peito := Z.b2z dor_peito;
            falta_ar := Z.b2z falta_ar;
            fadiga := Z.b2z fadiga;
            tontura := Z.b2z tontura |}.

Definition calcular_risco_simulado (dados : DadosPaciente) : ResultadoSimulado :=
  let score := 0 in
  (* Fator idade *)
  let score :=
    if (idade dados >? 65)%Z then score + 0.3
    else if (idade dados >? 50)%Z then score + 0.2
    else if (idade dados >? 35)%Z then score + 0.1
    else score in
  (* Fator pressao arterial *)
  let score :=
    if (pressao_sistolica dados >? 140)%Z || (pressao_diastolica dados >? 90)%Z
    then score + 0.25
    else if (pressao_sistolica dados >? 130)%Z || (pressao_diastolica dados >? 85)%Z
    then score + 0.15
    else score in
  (* Fator BMI *)
  let score :=
    if bmi dados >? 30 then score + 0.2
    else if bmi dados >? 25 then score + 0.1
    else score in
  (* Fator colesterol *)
  let score :=
    if (colesterol dados >? 240)%Z then score + 0.2
    else if (colesterol dados >? 200)%Z then score + 0.1
    else score in
  (* Fator glicose *)
  let score :=
    if (glicose dados >? 126)%Z then score + 0.15
    else if (glicose dados >? 100)%Z then score + 0.05
    else score in
  (* Sintomas *)
  let score := score + inject_Z (dor_peito dados) * 0.15 in
  let score := score + inject_Z (falta_ar dados) * 0.1 in
  let score := score + inject_Z (fadiga dados) * 0.08 in
  let score := score + inject_Z (tontura dados) * 0.05 in
  (* Determinar categoria de risco *)
  let '(categoria, probabilidade, cor) :=
    if score >=? 0.7 then
      ("Alto Risco", Qmin 0.95 (0.7 + score * 0.3), "#dc3545")
    else if score >=? 0.4 then
      ("Médio Risco", 0.4 + score * 0.4, "#ffc107")
    else
      ("Baixo Risco", Qmax 0.05 (score * 0.5), "#28a745") in
  {| categoria := categoria;
     probabilidade := probabilidade;
     score := score;
     cor := cor |}.

(** An entry of the list that [gerar_explicacoes_shap_simuladas] returns.
    The key ['valor'] holds an int, a rounded float or the text ['Sim']. *)
Inductive Valor : Type :=
| ValorInt (n : Z)
| ValorFloat (x : Q)
| ValorStr (s : string).

Record ExplicacaoSimulada : Type := mkExplicacaoSimulada {
  fator : string;
  valor : Valor;
  impacto : Q;
  interpretacao : string
}.

Section ExplicacoesSimuladas.

(** How Python prints a float with [{x:.2f}]. *)
Variable fmt_2f : Q -> string.

(** [gerar_explicacoes_shap_simuladas] (lines 224-278).  The symptom is an
    int of the dict, tested for truth: any value but 0. *)
Definition gerar_explicacoes_shap_simuladas
    (dados : DadosPaciente) (resultado : ResultadoSimulado)
  : list ExplicacaoSimulada :=
  let explicacoes := [] in
  (* Analise de cada fator *)
  let explicacoes :=
    if (idade dados >? 50)%Z then
      let impacto := inject_Z (idade dados - 50) * 0.005 in
      append explicacoes
        {| fator := "Idade";
           valor := ValorInt (idade dados);
           impacto := impacto;
           interpretacao :=
             "Idade de " ++ str_int (idade dados) ++ " anos aumenta o risco" |}
    else explicacoes in
  let explicacoes :=
    if (pressao_sistolica dados >? 120)%Z then
      let impacto := inject_Z (pressao_sistolica dados - 120) * 0.002 in
      append explicacoes
        {| fator := "Pressão Sistólica";
           valor := ValorInt (pressao_sistolica dados);
           impacto := impacto;
           interpretacao :=
             "Pressão sistólica de " ++ str_int (pressao_sistolica dados)
             ++ " mmHg" |}
    else explicacoes in
  let explicacoes :=
    if bmi dados >? 25 then
      let impacto := (bmi dados - 25) * 0.01 in
      append explicacoes
        {| fator := "BMI";
           valor := ValorFloat (py_round (bmi dados) 2);
           impacto := impacto;
           interpretacao :=
             "BMI de " ++ fmt_2f (bmi dados) ++ " indica sobrepeso" |}
    else explicacoes in
  let explicacoes :=
    if (colesterol dados >? 200)%Z then
      let impacto := inject_Z (colesterol dados - 200) * 0.001 in
      append explicacoes
        {| fator := "Colesterol";
           valor := ValorInt (colesterol dados);
           impacto := impacto;
           interpretacao :=
             "Colesterol de " ++ str_int (colesterol dados)
             ++ " mg/dL elevado" |}
    else explicacoes in
  (* Sintomas *)
  let explicacoes :=
    if negb (dor_peito dados =? 0)%Z then
      append explicacoes
        {| fator := "Dor no Peito";
           valor := ValorStr "Sim";
           impacto := 0.15;
           interpretacao := "Sintoma preocupante para risco cardíaco" |}
    else explicacoes in
  (* Ordenar por impacto *)
  sort_reverse impacto explicacoes.

End ExplicacoesSimuladas.

End Dashboard.

(** ** The ladder of [calcular_risco_avancado], one rung at a time

    The same accumulation as [Main.soma_incrementos], cut at each
    [let score := ...]; used to reason about one factor at a time. *)

Definition passo_idade (dados : PacienteInput) (score : Q) : Q :=
  if (idade dados >=? 75)%Z then score + 0.35
  else if (idade dados >=? 65)%Z then score + 0.25
  else if (idade dados >=? 55)%Z then score + 0.20
  else if (idade dados >=? 45)%Z then score + 0.15
  else if (idade dados >=? 35)%Z then score + 0.10
  else score.

Definition passo_pressao (dados : PacienteInput) (score : Q) : Q :=
  if (pressao_sistolica dados >=? 180) || (pressao_diastolica dados >=? 120)
  then score + 0.30
  else if (pressao_sistolica dados >=? 140) || (pressao_diastolica dados >=? 90)
  then score + 0.25
  else if (pressao_sistolica dados >=? 130) || (pressao_diastolica dados >=? 80)
  then score + 0.15
  else if pressao_sistolica dados >=? 120 then score + 0.05
  else score.

Definition passo_bmi (bmi : Q) (score : Q) : Q :=
  if bmi >=? 40 then score + 0.25
  else if bmi >=? 35 then score + 0.20
  else if bmi >=? 30 then score + 0.15
  else if bmi >=? 25 then score + 0.08
  else score.

Definition passo_colesterol (dados : PacienteInput) (score : Q) : Q :=
  if colesterol dados >=? 300 then score + 0.25
  else if colesterol dados >=? 240 then score + 0.20
  else if colesterol dados >=? 200 then score + 0.10
  else score.

Definition passo_glicose (dados : PacienteInput) (score : Q) : Q :=
  if glicose dados >=? 200 then score + 0.25
  else if glicose dados >=? 126 then score + 0.20
  else if glicose dados >=? 100 then score + 0.10
  else score.

Definition passo_sintomas (dados : PacienteInput) (score : Q) : Q :=
  let score := if dor_peito dados then score + 0.20 else score in
  let score := if falta_ar dados then score + 0.15 else score in
  let score := if fadiga dados then score + 0.10 else score in
  let score := if tontura dados then score + 0.08 else score in
  score.

Definition passo_medicamentos (dados : PacienteInput) (score : Q) : Q :=
  if (num_medicamentos dados >=? 5)%Z then score + 0.10
  else if (num_medicamentos dados >=? 3)%Z then score + 0.05
  else score.

Definition passo_visitas (dados : PacienteInput) (score : Q) : Q :=
  if (visitas_anuais dados >=? 6)%Z then score + 0.08
  else if (visitas_anuais dados >=? 3)%Z then score + 0.04
  else score.

Definition passo_genero (dados : PacienteInput) (score : Q) : Q :=
  if (genero dados =? "Masculino")%string then score + 0.05 else score.

Definition escada (dados : PacienteInput) (bmi : Q) : Q :=
  passo_genero dados
    (passo_visitas dados
      (passo_medicamentos dados
        (passo_sintomas dados
          (passo_glicose dados
            (passo_colesterol dados
              (passo_bmi bmi
                (passo_pressao dados
                  (passo_idade dados 0)))))))).

(** The increments in hundredths: every one is a whole number of them. *)

Definition pts_idade (dados : PacienteInput) : Z :=
  if (idade dados >=? 75)%Z then 35
  else if (idade dados >=? 65)%Z then 25
  else if (idade dados >=? 55)%Z then 20
  else if (idade dados >=? 45)%Z then 15
  else if (idade dados >=? 35)%Z then 10
  else 0.

Definition pts_pressao (dados : PacienteInput) : Z :=
  if (pressao_sistolica dados >=? 180) || (pressao_diastolica dados >=? 120) then 30
  else if (pressao_sistolica dados >=? 140) || (pressao_diastolica dados >=? 90) then 25
  else if (pressao_sistolica dados >=? 130) || (pressao_diastolica dados >=? 80) then 15
  else if pressao_sistolica dados >=? 120 then 5
  else 0.

Definition pts_bmi (bmi : Q) : Z :=
  if bmi >=? 40 then 25
  else if bmi >=? 35 then 20
  else if bmi >=? 30 then 15
  else if bmi >=? 25 then 8
  else 0.

Definition pts_colesterol (dados : PacienteInput) : Z :=
  if colesterol dados >=? 300 then 25
  else if colesterol dados >=? 240 then 20
  else if colesterol dados >=? 200 then 10
  else 0.

Definition pts_glicose (dados : PacienteInput) : Z :=
  if glicose dados >=? 200 then 25
  else if glicose dados >=? 126 then 20
  else if glicose dados >=? 100 then 10
  else 0.

Definition pts_sintomas (dados : PacienteInput) : Z :=
  (if dor_peito dados then 20 else 0) + (if falta_ar dados then 15 else 0)
  + (if fadiga dados then 10 else 0) + (if tontura dados then 8 else 0).

Definition pts_medicamentos (dados : PacienteInput) : Z :=
  if (num_medicamentos dados >=? 5)%Z then 10
  else if (num_medicamentos dados >=? 3)%Z then 5
  else 0.

Definition pts_visitas (dados : PacienteInput) : Z :=
  if (visitas_anuais dados >=? 6)%Z then 8
  else if (visitas_anuais dados >=? 3)%Z then 4
  else 0.

Definition pts_genero (dados : PacienteInput) : Z :=
  if (genero dados =? "Masculino")%string then 5 else 0.

Definition pontos (dados : PacienteInput) (bmi : Q) : Z :=
  pts_idade dados + pts_pressao dados + pts_bmi bmi + pts_colesterol dados
  + pts_glicose dados + pts_sintomas dados + pts_medicamentos dados
  + pts_visitas dados + pts_genero dados.

Definition centesimos (n : Z) : Q := n # 100.

(** The BMI that the scorer reads for a record whose height is not zero. *)
Definition bmi_arredondado (dados : PacienteInput) : Q :=
  py_round (peso dados / altura dados ^ 2) 2.

(** ** Records that differ in one field *)

Definition com_idade (d : PacienteInput) (x : Z) : PacienteInput :=
  mkPaciente x (genero d) (tipo_sanguineo d) (pressao_sistolica d)
    (pressao_diastolica d) (freq_cardiaca d) (peso d) (altura d) (colesterol d)
    (glicose d) (num_medicamentos d) (visitas_anuais d) (dor_peito d)
    (falta_ar d) (fadiga d) (tontura d).

Definition com_genero (d : PacienteInput) (x : string) : PacienteInput :=
  mkPaciente (idade d) x (tipo_sanguineo d) (pressao_sistolica d)
    (pressao_diastolica d) (freq_cardiaca d) (peso d) (altura d) (colesterol d)
    (glicose d) (num_medicamentos d) (visitas_anuais d) (dor_peito d)
    (falta_ar d) (fadiga d) (tontura d).

Definition com_pressao_sistolica (d : PacienteInput) (x : Q) : PacienteInput :=
  mkPaciente (idade d) (genero d) (tipo_sanguineo d) x
    (pressao_diastolica d) (freq_cardiaca d) (peso d) (altura d) (colesterol d)
    (glicose d) (num_medicamentos d) (visitas_anuais d) (dor_peito d)
    (falta_ar d) (fadiga d) (tontura d).

Definition com_pressao_diastolica (d : PacienteInput) (x : Q) : PacienteInput :=
  mkPaciente (idade d) (genero d) (tipo_sanguineo d) (pressao_sistolica d)
    x (freq_cardiaca d) (peso d) (altura d) (colesterol d)
    (glicose d) (num_medicamentos d) (visitas_anuais d) (dor_peito d)
    (falta_ar d) (fadiga d) (tontura d).

Definition com_peso (d : PacienteInput) (x : Q) : PacienteInput :=
  mkPaciente (idade d) (genero d) (tipo_sanguineo d) (pressao_sistolica d)
    (pressao_diastolica d) (freq_cardiaca d) x (altura d) (colesterol d)
    (glicose d) (num_medicamentos d) (visitas_anuais d) (dor_peito d)
    (falta_ar d) (fadiga d) (tontura d).

Definition com_colesterol (d : PacienteInput) (x : Q) : PacienteInput :=
  mkPaciente (idade d) (genero d) (tipo_sanguineo d) (pressao_sistolica d)
    (pressao_diastolica d) (freq_cardiaca d) (peso d) (altura d) x
    (glicose d) (num_medicamentos d) (visitas_anuais d) (dor_peito d)
    (falta_ar d) (fadiga d) (tontura d).

Definition com_glicose (d : PacienteInput) (x : Q) : PacienteInput :=
  mkPaciente (idade d) (genero d) (tipo_sanguineo d) (pressao_sistolica d)
    (pressao_diastolica d) (freq_cardiaca d) (peso d) (altura d) (colesterol d)
    x (num_medicamentos d) (visitas_anuais d) (dor_peito d)
    (falta_ar d) (fadiga d) (tontura d).

Definition com_num_medicamentos (d : PacienteInput) (x : Z) : PacienteInput :=
  mkPaciente (idade d) (genero d) (tipo_sanguineo d) (pressao_sistolica d)
    (pressao_diastolica d) (freq_cardiaca d) (peso d) (altura d) (colesterol d)
    (glicose d) x (visitas_anuais d) (dor_peito d)
    (falta_ar d) (fadiga d) (tontura d).

Definition com_visitas_anuais (d : PacienteInput) (x : Z) : PacienteInput :=
  mkPaciente (idade d) (genero d) (tipo_sanguineo d) (pressao_sistolica d)
    (pressao_diastolica d) (freq_cardiaca d) (peso d) (altura d) (colesterol d)
    (glicose d) (num_medicamentos d) x (dor_peito d)
    (falta_ar d) (fadiga d) (tontura d).

(** The four symptom flags. *)
Inductive Sintoma : Type := DorPeito | FaltaAr | Fadiga | Tontura.

Definition tem_sintoma (d : PacienteInput) (s : Sintoma) : bool :=
  match s with
  | DorPeito => dor_peito d
  | FaltaAr => falta_ar d
  | Fadiga => fadiga d
  | Tontura => tontura d
  end.

(** The record with the flag of [s] turned on. *)
Definition com_sintoma (d : PacienteInput) (s : Sintoma) : PacienteInput :=
  mkPaciente (idade d) (genero d) (tipo_sanguineo d) (pressao_sistolica d)
    (pressao_diastolica d) (freq_cardiaca d) (peso d) (altura d) (colesterol d)
    (glicose d) (num_medicamentos d) (visitas_anuais d)
    (match s with DorPeito => true | _ => dor_peito d end)
    (match s with FaltaAr => true | _ => falta_ar d end)
    (match s with Fadiga => true | _ => fadiga d end)
    (match s with Tontura => true | _ => tontura d end).

(** The increment that the scorer adds for each flag. *)
Definition incremento_sintoma (s : Sintoma) : Q :=
  match s with
  | DorPeito => 0.20
  | FaltaAr => 0.15
  | Fadiga => 0.10
  | Tontura => 0.08
  end.

(** [mais_severo d d']: [d'] is [d] with exactly one risk factor made more
    severe, every other field untouched. *)
Inductive mais_severo (d : PacienteInput) : PacienteInput -> Prop :=
| sev_idade x : (idade d <= x)%Z -> mais_severo d (com_idade d x)
| sev_sistolica x :
    pressao_sistolica d <= x -> mais_severo d (com_pressao_sistolica d x)
| sev_diastolica x :
    pressao_diastolica d <= x -> mais_severo d (com_pressao_diastolica d x)
| sev_peso x : peso d <= x -> mais_severo d (com_peso d x)
| sev_colesterol x : colesterol d <= x -> mais_severo d (com_colesterol d x)
| sev_glicose x : glicose d <= x -> mais_severo d (com_glicose d x)
| sev_medicamentos x :
    (num_medicamentos d <= x)%Z -> mais_severo d (com_num_medicamentos d x)
| sev_visitas x :
    (visitas_anuais d <= x)%Z -> mais_severo d (com_visitas_anuais d x)
| sev_sintoma s : tem_sintoma d s = false -> mais_severo d (com_sintoma d s).

(** ** The records of the [/exemplo-paciente] endpoint (main.py, 461-516) *)

Definition exemplo_baixo_risco : PacienteInput :=
  mkPaciente 35 "Feminino" "O+" 110 70 68 65 1.65 180 90 0 1
    false false false false.

Definition exemplo_medio_risco : PacienteInput :=
  mkPaciente 50 "Masculino" "A+" 135 85 75 85 1.75 220 105 2 2
    false false true false.

Definition exemplo_alto_risco : PacienteInput :=
  mkPaciente 65 "Masculino" "A+" 165 95 85 95 1.75 280 140 4 6
    true true true false.

(** ** Descending order of a list of explanations *)

Definition impacto_ge (a b : ExplicacaoSHAP) : Prop := impacto b <= impacto a.

Definition decrescente (l : list ExplicacaoSHAP) : Prop :=
  StronglySorted impacto_ge l.

Fixpoint decrescenteb (l : list ExplicacaoSHAP) : bool :=
  match l with
  | [] => true
  | a :: l' => forallb (fun b => impacto b <=? impacto a) l' && decrescenteb l'
  end.

(** ** What the request model guarantees, as propositions *)

Record Valido (d : PacienteInput) : Prop := {
  v_idade : (18 <= idade d <= 120)%Z;
  v_genero : genero d = "Masculino" \/ genero d = "Feminino";
  v_sistolica : 60 <= pressao_sistolica d <= 300;
  v_diastolica : 30 <= pressao_diastolica d <= 200;
  v_freq : 30 <= freq_cardiaca d <= 200;
  v_peso : 20 <= peso d <= 300;
  v_altura : 1 <= altura d <= 2.5;
  v_colesterol : 50 <= colesterol d <= 500;
  v_glicose : 50 <= glicose d <= 400;
  v_medicamentos : (0 <= num_medicamentos d <= 20)%Z;
  v_visitas : (0 <= visitas_anuais d <= 50)%Z;
  v_pressoes : pressao_diastolica d < pressao_sistolica d
}.

(** ** Records used in the statements below *)

(** Raw BMI 24.996, just under the overweight band, no other risk factor. *)
Definition exemplo_bmi_limite : PacienteInput :=
  mkPaciente 30 "Feminino" "O+" 110 70 68 24.996 1.0 180 90 0 1
    false false false false.

(** A man of 55 with cholesterol 200 and glucose 100, nothing else: as sent
    to the API and as typed into the dashboard form. *)
Definition paciente_divergente : PacienteInput :=
  mkPaciente 55 "Masculino" "O+" 110 70 70 60 1.7 200 100 0 1
    false false false false.

Definition dados_divergentes : option Dashboard.DadosPaciente :=
  Dashboard.paciente_data 55 "Masculino" "O+" 110 70 70 60 1.7 200 100 0 1
    false false false false.

(** Every factor of the dashboard form at its worst band. *)
Definition dados_graves : option Dashboard.DadosPaciente :=
  Dashboard.paciente_data 70 "Feminino" "O+" 150 95 90 110 1.7 250 130 0 1
    true true true true.

(** The dashboard dict with another value under ['genero']. *)
Definition dash_com_genero (dados : Dashboard.DadosPaciente) (g : string)
  : Dashboard.DadosPaciente :=
  Dashboard.mkDados (Dashboard.idade dados) g (Dashboard.tipo_sanguineo dados)
    (Dashboard.pressao_sistolica dados) (Dashboard.pressao_diastolica dados)
    (Dashboard.freq_cardiaca dados) (Dashboard.bmi dados)
    (Dashboard.colesterol dados) (Dashboard.glicose dados)
    (Dashboard.num_medicamentos dados) (Dashboard.visitas_anuais dados)
    (Dashboard.dor_peito dados) (Dashboard.falta_ar dados)
    (Dashboard.fadiga dados) (Dashboard.tontura dados).

(** ** The factors whose threshold was crossed

    Following the words of the specification ("for each factor whose threshold
    was crossed, emit a tuple"): the names of the risk factors that each
    explanation builder has to emit, in the order of its tests. *)

Definition limiares_cruzados_shap (d : PacienteInput) (bmi : Q) : list string :=
  (if (idade d >? 50)%Z then ["Idade"] else [])
  ++ (if pressao_sistolica d >? 140 then ["Pressao Sistolica"] else [])
  ++ (if bmi >? 30 then ["BMI"] else [])
  ++ (if dor_peito d then ["Dor no Peito"] else []).

Definition limiares_cruzados_detalhadas (d : PacienteInput) (bmi : Q)
  : list string :=
  let classificacao_pressao :=
    Corrigida.classificar_pressao (pressao_sistolica d) (pressao_diastolica d) in
  (if (idade d >=? 65)%Z then ["Idade Avançada"]
   else if (idade d >=? 45)%Z then ["Idade Intermediária"] else [])
  ++ (if pertence classificacao_pressao
           ["Hipertensão Estágio 2"; "Crise Hipertensiva"]
      then ["Hipertensão Severa"]
      else if (classificacao_pressao =? "Hipertensão Estágio 1")%string
      then ["Hipertensão Leve"] else [])
  ++ (if bmi >=? 30 then ["Obesidade"]
      else if bmi >=? 25 then ["Sobrepeso"] else [])
  ++ (if colesterol d >=? 240 then ["Colesterol Muito Alto"]
      else if colesterol d >=? 200 then ["Colesterol Elevado"] else [])
  ++ (if glicose d >=? 126 then ["Diabetes"]
      else if glicose d >=? 100 then ["Pré-diabetes"] else [])
  ++ (if dor_peito d then ["Dor Torácica"] else [])
  ++ (if falta_ar d then ["Dispneia"] else [])
  ++ (if fadiga d then ["Fadiga"] else []).

(** The dict that [analise_completa] builds from the tuple of the scorer
    (main.py, 431-435). *)
Definition resultado_da_analise (r : Risco) : Main.Resultado :=
  Main.mkResultado (categoria_de r) (probabilidade_de r) (score_de r).

(** A woman of 51 with chest pain and nothing else. *)
Definition exemplo_dor_peito : PacienteInput :=
  mkPaciente 51 "Feminino" "O+" 110 70 68 65 1.65 180 90 0 1
    true false false false.

(** A rendering of floats for closed examples; no order of a list depends on
    the text of an interpretation. *)
Definition texto_qualquer (x : Q) : string := "".

(** A valid record with every factor in its highest band, and one with no
    factor at all. *)
Definition exemplo_todos_os_fatores : PacienteInput :=
  mkPaciente 80 "Masculino" "A+" 185 125 90 130 1.7 320 210 6 8
    true true true true.

Definition exemplo_sem_fatores : PacienteInput :=
  mkPaciente 30 "Feminino" "O+" 110 70 68 60 1.7 180 90 0 1
    false false false false.

(** Systolic 185 with diastolic 85. *)
Definition exemplo_sistolica_185 : PacienteInput :=
  mkPaciente 40 "Feminino" "O+" 185 85 68 60 1.7 180 90 0 1
    false false false false.

(** Sign of the contribution of an explanation. *)
Definition positivo (x : ExplicacaoSHAP) : Prop := 0 < impacto x.
Definition negativo (x : ExplicacaoSHAP) : Prop := impacto x < 0.

(** The same for [gerar_explicacoes_detalhadas] of api_medica_windows.py,
    which tests five factors. *)
Definition limiares_cruzados_windows (d : PacienteInput) (bmi : Q)
  : list string :=
  let classificacao_pressao :=
    Windows.classificar_pressao (pressao_sistolica d) (pressao_diastolica d) in
  (if (idade d >=? 65)%Z then ["Idade Avancada"]
   else if (idade d >=? 45)%Z then ["Idade Intermediaria"] else [])
  ++ (if pertence classificacao_pressao
           ["Hipertensao Estagio 2"; "Crise Hipertensiva"]
      then ["Hipertensao Severa"]
      else if (classificacao_pressao =? "Hipertensao Estagio 1")%string
      then ["Hipertensao Leve"] else [])
  ++ (if bmi >=? 30 then ["Obesidade"]
      else if bmi >=? 25 then ["Sobrepeso"] else [])
  ++ (if dor_peito d then ["Dor Toracica"] else [])
  ++ (if falta_ar d then ["Dispneia"] else []).

(** * Properties *)

(** ** Comparisons *)

Lemma Qgeb_spec (x y : Q) : BoolSpec (y <= x) (x < y) (x >=? y).
Proof.
  unfold Qgeb. destruct (Qle_bool y x) eqn:E; constructor.
  - now apply Qle_bool_iff.
  - apply Qnot_le_lt. intro H. apply Qle_bool_iff in H. congruence.
Qed.

Lemma Qleb_spec (x y : Q) : BoolSpec (x <= y) (y < x) (x <=? y).
Proof. exact (Qgeb_spec y x). Qed.

Lemma Qltb_spec (x y : Q) : BoolSpec (x < y) (y <= x) (x <? y).
Proof.
  unfold Qltb. change (Qle_bool y x) with (x >=? y).
  destruct (Qgeb_spec x y); simpl; constructor; assumption.
Qed.

Lemma Qgtb_spec (x y : Q) : BoolSpec (y < x) (x <= y) (x >? y).
Proof. exact (Qltb_spec y x). Qed.

(** Split on the first comparison that guards a branch of the goal. *)
Ltac ramo :=
  match goal with
  | |- context [Qgeb ?x ?y] => destruct (Qgeb_spec x y)
  | |- context [Qleb ?x ?y] => destruct (Qleb_spec x y)
  | |- context [Qltb ?x ?y] => destruct (Qltb_spec x y)
  | |- context [Qgtb ?x ?y] => destruct (Qgtb_spec x y)
  | |- context [Z.geb ?x ?y] => destruct (Z.geb_spec x y)
  | |- context [Z.gtb ?x ?y] => destruct (Z.gtb_spec x y)
  | |- context [Z.leb ?x ?y] => destruct (Z.leb_spec x y)
  | |- context [Z.ltb ?x ?y] => destruct (Z.ltb_spec x y)
  end.

Ltac ramos := repeat (ramo; simpl).

(** ** Rounding *)

Lemma round_half_even_mono (x y : Q) :
  x <= y -> (round_half_even x <= round_half_even y)%Z.
Proof.
  intro Hxy. unfold round_half_even.
  pose proof (Qfloor_le x) as Hx1. pose proof (Qlt_floor x) as Hx2.
  pose proof (Qfloor_le y) as Hy1. pose proof (Qlt_floor y) as Hy2.
  pose proof (Qfloor_resp_le _ _ Hxy) as Hfg.
  rewrite inject_Z_plus in Hx2, Hy2.
  assert (Hcase : (Qfloor x = Qfloor y \/ Qfloor x + 1 <= Qfloor y)%Z) by lia.
  destruct Hcase as [E | L].
  - rewrite <- E in *. cbv zeta.
    ramos; destruct (Z.even (Qfloor x)); try lia; exfalso; lra.
  - cbv zeta.
    ramos; destruct (Z.even (Qfloor x)); destruct (Z.even (Qfloor y)); lia.
Qed.

Lemma round_half_even_perto (x : Q) :
  inject_Z (round_half_even x) - (1 # 2) <= x
  /\ x <= inject_Z (round_half_even x) + (1 # 2).
Proof.
  unfold round_half_even.
  pose proof (Qfloor_le x) as Hx1. pose proof (Qlt_floor x) as Hx2.
  rewrite inject_Z_plus in Hx2. change (inject_Z 1) with 1 in Hx2. cbv zeta.
  ramos; try destruct (Z.even (Qfloor x)); rewrite ?inject_Z_plus;
    change (inject_Z 1) with 1; split; lra.
Qed.

Lemma py_round_2 (x : Q) :
  py_round x 2 = inject_Z (round_half_even (x * 100)) / 100.
Proof. reflexivity. Qed.

Lemma py_round_2_mono (x y : Q) : x <= y -> py_round x 2 <= py_round y 2.
Proof.
  intro H. rewrite !py_round_2.
  assert (Hm : (round_half_even (x * 100) <= round_half_even (y * 100))%Z)
    by (apply round_half_even_mono; lra).
  rewrite Zle_Qle in Hm. unfold Qdiv.
  apply Qmult_le_compat_r; [exact Hm | discriminate].
Qed.

(** ** Validation *)

Lemma valido_Valido (d : PacienteInput) : valido d = true -> Valido d.
Proof.
  unfold valido, campos_validos, validar_pressao_diastolica, pertence, generos.
  intro H. repeat (apply andb_prop in H; destruct H as [H ?]).
  repeat match goal with
  | H : Qleb _ _ = true |- _ => apply Qle_bool_iff in H
  | H : Z.leb _ _ = true |- _ => apply Z.leb_le in H
  end.
  constructor; try (split; first [assumption | lra]).
  - match goal with H : existsb _ [_; _] = true |- _ =>
      simpl in H; rewrite orb_false_r in H;
      apply orb_prop in H; destruct H as [H | H];
      apply String.eqb_eq in H; auto end.
  - match goal with H : negb _ = true |- _ =>
      apply negb_true_iff in H; revert H end.
    destruct (Qgeb_spec (pressao_diastolica d) (pressao_sistolica d));
      intro; [discriminate | assumption].
Qed.

Lemma altura_nao_nula (a : Q) : 1 <= a -> Qeq_bool (a ^ 2) 0 = false.
Proof.
  intro H. destruct (Qeq_bool (a ^ 2) 0) eqn:E; [| reflexivity].
  apply Qeq_bool_iff in E. simpl in E. nra.
Qed.

(** ** The ladder, rung by rung *)

Lemma centesimos_plus (a b : Z) :
  centesimos (a + b) == centesimos a + centesimos b.
Proof. unfold centesimos, Qeq, Qplus. simpl. lia. Qed.

Lemma centesimos_le (a b : Z) : (a <= b)%Z -> centesimos a <= centesimos b.
Proof. unfold centesimos, Qle. simpl. lia. Qed.

Ltac rung := intros; ramos; unfold centesimos; lra.

Lemma passo_idade_pts d s : passo_idade d s == s + centesimos (pts_idade d).
Proof. unfold passo_idade, pts_idade. rung. Qed.

Lemma passo_pressao_pts d s : passo_pressao d s == s + centesimos (pts_pressao d).
Proof. unfold passo_pressao, pts_pressao. rung. Qed.

Lemma passo_bmi_pts bmi s : passo_bmi bmi s == s + centesimos (pts_bmi bmi).
Proof. unfold passo_bmi, pts_bmi. rung. Qed.

Lemma passo_colesterol_pts d s :
  passo_colesterol d s == s + centesimos (pts_colesterol d).
Proof. unfold passo_colesterol, pts_colesterol. rung. Qed.

Lemma passo_glicose_pts d s : passo_glicose d s == s + centesimos (pts_glicose d).
Proof. unfold passo_glicose, pts_glicose. rung. Qed.

Lemma passo_sintomas_pts d s :
  passo_sintomas d s == s + centesimos (pts_sintomas d).
Proof.
  unfold passo_sintomas, pts_sintomas.
  destruct (dor_peito d), (falta_ar d), (fadiga d), (tontura d);
    simpl; unfold centesimos; lra.
Qed.

Lemma passo_medicamentos_pts d s :
  passo_medicamentos d s == s + centesimos (pts_medicamentos d).
Proof. unfold passo_medicamentos, pts_medicamentos. rung. Qed.

Lemma passo_visitas_pts d s : passo_visitas d s == s + centesimos (pts_visitas d).
Proof. unfold passo_visitas, pts_visitas. rung. Qed.

Lemma passo_genero_pts d s : passo_genero d s == s + centesimos (pts_genero d).
Proof.
  unfold passo_genero, pts_genero.
  destruct (genero d =? "Masculino")%string; unfold centesimos; lra.
Qed.

(** The accumulated score is a whole number of hundredths. *)
Lemma escada_pontos d bmi : escada d bmi == centesimos (pontos d bmi).
Proof.
  unfold escada, pontos.
  rewrite passo_genero_pts, passo_visitas_pts, passo_medicamentos_pts,
    passo_sintomas_pts, passo_glicose_pts, passo_colesterol_pts,
    passo_bmi_pts, passo_pressao_pts, passo_idade_pts.
  rewrite !centesimos_plus. lra.
Qed.

(** Bounds of each increment. *)

Lemma pts_idade_bounds d : (0 <= pts_idade d <= 35)%Z.
Proof. unfold pts_idade. ramos; lia. Qed.

Lemma pts_pressao_bounds d : (0 <= pts_pressao d <= 30)%Z.
Proof. unfold pts_pressao. ramos; lia. Qed.

Lemma pts_bmi_bounds bmi : (0 <= pts_bmi bmi <= 25)%Z.
Proof. unfold pts_bmi. ramos; lia. Qed.

Lemma pts_colesterol_bounds d : (0 <= pts_colesterol d <= 25)%Z.
Proof. unfold pts_colesterol. ramos; lia. Qed.

Lemma pts_glicose_bounds d : (0 <= pts_glicose d <= 25)%Z.
Proof. unfold pts_glicose. ramos; lia. Qed.

Lemma pts_sintomas_bounds d : (0 <= pts_sintomas d <= 53)%Z.
Proof.
  unfold pts_sintomas.
  destruct (dor_peito d), (falta_ar d), (fadiga d), (tontura d); lia.
Qed.

Lemma pts_medicamentos_bounds d : (0 <= pts_medicamentos d <= 10)%Z.
Proof. unfold pts_medicamentos. ramos; lia. Qed.

Lemma pts_visitas_bounds d : (0 <= pts_visitas d <= 8)%Z.
Proof. unfold pts_visitas. ramos; lia. Qed.

Lemma pts_genero_bounds d : (0 <= pts_genero d <= 5)%Z.
Proof. unfold pts_genero. destruct (genero d =? "Masculino")%string; lia. Qed.

Lemma pontos_bounds d bmi : (0 <= pontos d bmi <= 216)%Z.
Proof.
  unfold pontos.
  pose proof (pts_idade_bounds d). pose proof (pts_pressao_bounds d).
  pose proof (pts_bmi_bounds bmi). pose proof (pts_colesterol_bounds d).
  pose proof (pts_glicose_bounds d). pose proof (pts_sintomas_bounds d).
  pose proof (pts_medicamentos_bounds d). pose proof (pts_visitas_bounds d).
  pose proof (pts_genero_bounds d). lia.
Qed.

(** ** From the source function to the ladder *)

Lemma main_soma_escada dados :
  Main.soma_incrementos dados =
  match Main.calcular_bmi (peso dados) (altura dados) with
  | None => None
  | Some (bmi, _) => Some (escada dados bmi)
  end.
Proof. reflexivity. Qed.

Lemma main_bmi_valido d :
  Valido d ->
  exists c, Main.calcular_bmi (peso d) (altura d) = Some (bmi_arredondado d, c).
Proof.
  intros V. unfold Main.calcular_bmi.
  rewrite altura_nao_nula by apply (v_altura d V).
  eexists. reflexivity.
Qed.

Lemma main_soma_valido d :
  Valido d -> Main.soma_incrementos d = Some (escada d (bmi_arredondado d)).
Proof.
  intros V. rewrite main_soma_escada.
  destruct (main_bmi_valido d V) as [c ->]. reflexivity.
Qed.
(** ** Clamps *)

Ltac minmax :=
  repeat match goal with
  | |- context [Qmin ?a ?b] =>
      lazymatch goal with
      | _ : Qmin a b == _ |- _ => fail
      | _ => destruct (Q.min_spec a b) as [[? ?] | [? ?]]
      end
  | |- context [Qmax ?a ?b] =>
      lazymatch goal with
      | _ : Qmax a b == _ |- _ => fail
      | _ => destruct (Q.max_spec a b) as [[? ?] | [? ?]]
      end
  | H : context [Qmin ?a ?b] |- _ =>
      lazymatch goal with
      | _ : Qmin a b == _ |- _ => fail
      | _ => destruct (Q.min_spec a b) as [[? ?] | [? ?]]
      end
  | H : context [Qmax ?a ?b] |- _ =>
      lazymatch goal with
      | _ : Qmax a b == _ |- _ => fail
      | _ => destruct (Q.max_spec a b) as [[? ?] | [? ?]]
      end
  end.

(** ** Lines 236-253: from the accumulated score to the returned tuple *)

Lemma main_classifica d soma :
  Main.soma_incrementos d = Some soma ->
  exists cat p conf,
    Main.calcular_risco_avancado d = Some (cat, p, Qmin soma 1.0, conf)
    /\ (0.75 <= Qmin soma 1.0 ->
        cat = "Alto Risco"
        /\ p = Qmax 0.01 (Qmin 0.99 (0.85 + (Qmin soma 1.0 - 0.75) * 0.6))
        /\ conf = 0.92)
    /\ (0.45 <= Qmin soma 1.0 < 0.75 ->
        cat = "Medio Risco"
        /\ p = Qmax 0.01 (Qmin 0.99 (0.30 + (Qmin soma 1.0 - 0.45) * 1.83))
        /\ conf = 0.88)
    /\ (Qmin soma 1.0 < 0.45 ->
        cat = "Baixo Risco"
        /\ p = Qmax 0.01 (Qmin 0.99 (Qmin soma 1.0 * 0.67))
        /\ conf = 0.85).
Proof.
  intro H. unfold Main.calcular_risco_avancado. rewrite H. cbv zeta.
  generalize (Qmin soma 1.0) as s. intro s.
  destruct (Qgeb_spec s 0.75); [| destruct (Qgeb_spec s 0.45)];
    do 3 eexists; (split; [reflexivity |]);
    repeat split; intros; try reflexivity; exfalso; lra.
Qed.

(** The tuple returned for a valid record, with its score spelled out. *)
Lemma main_resultado d :
  Valido d ->
  exists r n,
    Main.calcular_risco_avancado d = Some r
    /\ n = pontos d (bmi_arredondado d)
    /\ score_de r == Qmin (centesimos n) 1
    /\ (0.75 <= score_de r ->
        categoria_de r = "Alto Risco"
        /\ probabilidade_de r
           == Qmax 0.01 (Qmin 0.99 (0.85 + (score_de r - 0.75) * 0.6))
        /\ confianca_de r == 0.92)
    /\ (0.45 <= score_de r < 0.75 ->
        categoria_de r = "Medio Risco"
        /\ probabilidade_de r
           == Qmax 0.01 (Qmin 0.99 (0.30 + (score_de r - 0.45) * 1.83))
        /\ confianca_de r == 0.88)
    /\ (score_de r < 0.45 ->
        categoria_de r = "Baixo Risco"
        /\ probabilidade_de r == Qmax 0.01 (Qmin 0.99 (score_de r * 0.67))
        /\ confianca_de r == 0.85).
Proof.
  intro V.
  destruct (main_classifica d _ (main_soma_valido d V))
    as (cat & p & conf & E & Ha & Hm & Hb).
  exists (cat, p, Qmin (escada d (bmi_arredondado d)) 1.0, conf).
  exists (pontos d (bmi_arredondado d)).
  split; [exact E |]. split; [reflexivity |]. simpl.
  split.
  - pose proof (escada_pontos d (bmi_arredondado d)).
    minmax; lra.
  - split; [| split]; intro Hs;
      [ destruct (Ha Hs) as (-> & -> & ->)
      | destruct (Hm Hs) as (-> & -> & ->)
      | destruct (Hb Hs) as (-> & -> & ->) ];
      repeat split; reflexivity.
Qed.

(** C1: for a valid record the returned category, probability and confidence
    are read off the returned (clamped) score through the two thresholds 0.75
    and 0.45: High with 0.85 + (score - 0.75) * 0.6 and 0.92, Medium with
    0.30 + (score - 0.45) * 1.83 and 0.88, Low with score * 0.67 and 0.85, the
    probability clamped to [0.01, 0.99]; a score of 0.44 is Low, 0.45 is
    Medium, 0.75 is High; and two valid records with the same score receive
    the same category, probability and confidence. *)
Theorem C1_categoria_pelo_score (d : PacienteInput) :
  valido d = true ->
  exists r,
    Main.calcular_risco_avancado d = Some r
    /\ (0.75 <= score_de r ->
        categoria_de r = "Alto Risco"
        /\ probabilidade_de r
           == Qmax 0.01 (Qmin 0.99 (0.85 + (score_de r - 0.75) * 0.6))
        /\ confianca_de r == 0.92)
    /\ (0.45 <= score_de r < 0.75 ->
        categoria_de r = "Medio Risco"
        /\ probabilidade_de r
           == Qmax 0.01 (Qmin 0.99 (0.30 + (score_de r - 0.45) * 1.83))
        /\ confianca_de r == 0.88)
    /\ (score_de r < 0.45 ->
        categoria_de r = "Baixo Risco"
        /\ probabilidade_de r == Qmax 0.01 (Qmin 0.99 (score_de r * 0.67))
        /\ confianca_de r == 0.85)
    /\ (score_de r == 0.44 -> categoria_de r = "Baixo Risco")
    /\ (score_de r == 0.45 -> categoria_de r = "Medio Risco")
    /\ (score_de r == 0.75 -> categoria_de r = "Alto Risco")
    /\ (forall d' r',
        valido d' = true ->
        Main.calcular_risco_avancado d' = Some r' ->
        score_de r' == score_de r ->
        categoria_de r' = categoria_de r
        /\ probabilidade_de r' == probabilidade_de r
        /\ confianca_de r' == confianca_de r).
Proof.
  intro V. apply valido_Valido in V.
  destruct (main_resultado d V) as (r & n & E & _ & _ & Ha & Hm & Hb).
  exists r. split; [exact E |].
  split; [exact Ha |]. split; [exact Hm |]. split; [exact Hb |].
  split; [| split; [| split]].
  - intro Hs. apply Hb. lra.
  - intro Hs. apply Hm. lra.
  - intro Hs. apply Ha. lra.
  - intros d' r' V' E' Hs. apply valido_Valido in V'.
    destruct (main_resultado d' V') as (r2 & n2 & E2 & _ & _ & Ha' & Hm' & Hb').
    rewrite E' in E2. injection E2 as <-.
    destruct (Qlt_le_dec (score_de r) 0.45) as [L | L].
    + destruct (Hb L) as (-> & Hp & Hc).
      destruct Hb' as (-> & Hp' & Hc'); [lra |].
      split; [reflexivity |]. split; [| lra].
      rewrite Hp, Hp', Hs. reflexivity.
    + destruct (Qlt_le_dec (score_de r) 0.75) as [M | M].
      * destruct (Hm (conj L M)) as (-> & Hp & Hc).
        destruct Hm' as (-> & Hp' & Hc'); [lra |].
        split; [reflexivity |]. split; [| lra].
        rewrite Hp, Hp', Hs. reflexivity.
      * destruct (Ha M) as (-> & Hp & Hc).
        destruct Ha' as (-> & Hp' & Hc'); [lra |].
        split; [reflexivity |]. split; [| lra].
        rewrite Hp, Hp', Hs. reflexivity.
Qed.

(** Range of the returned score and, per category, of the probability. *)
Lemma main_intervalos d :
  Valido d ->
  exists r,
    Main.calcular_risco_avancado d = Some r
    /\ 0 <= score_de r <= 1
    /\ ((categoria_de r = "Baixo Risco"
         /\ score_de r <= 0.44 /\ 0.01 <= probabilidade_de r <= 0.2948)
        \/ (categoria_de r = "Medio Risco"
            /\ 0.45 <= score_de r <= 0.74 /\ 0.30 <= probabilidade_de r <= 0.8307)
        \/ (categoria_de r = "Alto Risco"
            /\ 0.75 <= score_de r /\ 0.85 <= probabilidade_de r <= 0.99)).
Proof.
  intro V.
  destruct (main_resultado d V) as (r & n & E & Hn & Hs & Ha & Hm & Hb).
  pose proof (pontos_bounds d (bmi_arredondado d)) as Hb0. rewrite <- Hn in Hb0.
  assert (H0 : 0 <= centesimos n)
    by (unfold centesimos, Qle; simpl; lia).
  exists r. split; [exact E |].
  split; [minmax; lra |].
  destruct (Z_lt_le_dec n 45) as [L | L]; [| destruct (Z_lt_le_dec n 75) as [M | M]].
  - left.
    assert (Hc : centesimos n <= 0.44)
      by (apply (centesimos_le n 44); lia).
    destruct Hb as (Hcat & Hp & _); [minmax; lra |].
    split; [exact Hcat |]. rewrite Hp. minmax; lra.
  - right; left.
    assert (Hc1 : 0.45 <= centesimos n)
      by (apply (centesimos_le 45 n); lia).
    assert (Hc2 : centesimos n <= 0.74)
      by (apply (centesimos_le n 74); lia).
    destruct Hm as (Hcat & Hp & _); [minmax; lra |].
    split; [exact Hcat |]. rewrite Hp. minmax; lra.
  - right; right.
    assert (Hc : 0.75 <= centesimos n)
      by (apply (centesimos_le 75 n); lia).
    destruct Ha as (Hcat & Hp & _); [minmax; lra |].
    split; [exact Hcat |]. rewrite Hp. minmax; lra.
Qed.

(** C2: for every valid record the scorer returns a tuple whose score lies in
    [0, 1] and whose probability lies in [0.01, 0.99]. *)
Theorem C2_score_e_probabilidade_limitados (d : PacienteInput) :
  valido d = true ->
  exists r,
    Main.calcular_risco_avancado d = Some r
    /\ 0 <= score_de r <= 1
    /\ 0.01 <= probabilidade_de r <= 0.99.
Proof.
  intro V. apply valido_Valido in V.
  destruct (main_intervalos d V) as (r & E & Hs & Hc).
  exists r. split; [exact E |]. split; [exact Hs |].
  destruct Hc as [(_ & _ & ?) | [(_ & _ & ?) | (_ & _ & ?)]]; lra.
Qed.


(** C3: the two example records.  The low-risk one scores 0.10, the age band
    35-44 being its only increment, and is Low with probability
    0.10 * 0.67 = 0.067; the high-risk one accumulates more than 0.75, is High
    and has probability at least 0.85. *)
Theorem C3_exemplos_da_especificacao :
  (exists soma r,
      Main.soma_incrementos exemplo_baixo_risco = Some soma
      /\ soma == 0.10
      /\ passo_idade exemplo_baixo_risco 0 == 0.10
      /\ pontos exemplo_baixo_risco (bmi_arredondado exemplo_baixo_risco)
         = pts_idade exemplo_baixo_risco
      /\ Main.calcular_risco_avancado exemplo_baixo_risco = Some r
      /\ score_de r == 0.10
      /\ categoria_de r = "Baixo Risco"
      /\ probabilidade_de r == 0.10 * 0.67
      /\ probabilidade_de r == 0.067)
  /\ (exists soma r,
      Main.soma_incrementos exemplo_alto_risco = Some soma
      /\ 0.75 < soma
      /\ soma == 1.68
      /\ Main.calcular_risco_avancado exemplo_alto_risco = Some r
      /\ categoria_de r = "Alto Risco"
      /\ 0.85 <= probabilidade_de r).
Proof.
  split.
  - eexists. eexists.
    split; [vm_compute; reflexivity |].
    split; [vm_compute; reflexivity |].
    split; [vm_compute; reflexivity |].
    split; [vm_compute; reflexivity |].
    split; [vm_compute; reflexivity |].
    repeat split; vm_compute; reflexivity.
  - eexists. eexists.
    split; [vm_compute; reflexivity |].
    split; [vm_compute; reflexivity |].
    split; [vm_compute; reflexivity |].
    split; [vm_compute; reflexivity |].
    split; [vm_compute; reflexivity |].
    vm_compute. discriminate.
Qed.

(** ** Symptom flags *)

Lemma pontos_com_sintoma d s bmi :
  tem_sintoma d s = false ->
  centesimos (pontos (com_sintoma d s) bmi)
  == centesimos (pontos d bmi) + incremento_sintoma s.
Proof.
  intro H. unfold pontos.
  change (pts_idade (com_sintoma d s)) with (pts_idade d).
  change (pts_pressao (com_sintoma d s)) with (pts_pressao d).
  change (pts_colesterol (com_sintoma d s)) with (pts_colesterol d).
  change (pts_glicose (com_sintoma d s)) with (pts_glicose d).
  change (pts_medicamentos (com_sintoma d s)) with (pts_medicamentos d).
  change (pts_visitas (com_sintoma d s)) with (pts_visitas d).
  change (pts_genero (com_sintoma d s)) with (pts_genero d).
  rewrite !centesimos_plus.
  assert (E : centesimos (pts_sintomas (com_sintoma d s))
              == centesimos (pts_sintomas d) + incremento_sintoma s).
  { unfold pts_sintomas.
    destruct s; simpl in H;
      cbn [com_sintoma dor_peito falta_ar fadiga tontura];
      destruct (dor_peito d), (falta_ar d), (fadiga d), (tontura d);
      try discriminate H; vm_compute; reflexivity. }
  rewrite E. lra.
Qed.

Lemma Valido_com_sintoma d s : Valido d -> Valido (com_sintoma d s).
Proof. intros []. constructor; assumption. Qed.




Lemma C1_testemunha :
  valido exemplo_medio_risco = true
  /\ exists r,
      Main.calcular_risco_avancado exemplo_medio_risco = Some r
      /\ categoria_de r = "Medio Risco".
Proof.
  split; [reflexivity |].
  destruct (C1_categoria_pelo_score exemplo_medio_risco eq_refl)
    as (r & E & _ & Hm & _).
  exists r. split; [exact E |].
  apply Hm.
  revert E. vm_compute. intro E. injection E as <-. vm_compute.
  split; [discriminate | reflexivity].
Defined.

(** ** Monotonicity of each rung *)

Ltac degraus := intros; ramos; first [lia | exfalso; lra | exfalso; lia].

Lemma pts_idade_mono d x :
  (idade d <= x)%Z -> (pts_idade d <= pts_idade (com_idade d x))%Z.
Proof. unfold pts_idade; cbn [com_idade idade]. degraus. Qed.

Lemma pts_pressao_mono_sistolica d x :
  pressao_sistolica d <= x ->
  (pts_pressao d <= pts_pressao (com_pressao_sistolica d x))%Z.
Proof.
  unfold pts_pressao;
    cbn [com_pressao_sistolica pressao_sistolica pressao_diastolica].
  degraus.
Qed.

Lemma pts_pressao_mono_diastolica d x :
  pressao_diastolica d <= x ->
  (pts_pressao d <= pts_pressao (com_pressao_diastolica d x))%Z.
Proof.
  unfold pts_pressao;
    cbn [com_pressao_diastolica pressao_sistolica pressao_diastolica].
  degraus.
Qed.

Lemma pts_bmi_mono b b' : b <= b' -> (pts_bmi b <= pts_bmi b')%Z.
Proof. unfold pts_bmi. degraus. Qed.

Lemma pts_colesterol_mono d x :
  colesterol d <= x -> (pts_colesterol d <= pts_colesterol (com_colesterol d x))%Z.
Proof. unfold pts_colesterol; cbn [com_colesterol colesterol]. degraus. Qed.

Lemma pts_glicose_mono d x :
  glicose d <= x -> (pts_glicose d <= pts_glicose (com_glicose d x))%Z.
Proof. unfold pts_glicose; cbn [com_glicose glicose]. degraus. Qed.

Lemma pts_medicamentos_mono d x :
  (num_medicamentos d <= x)%Z ->
  (pts_medicamentos d <= pts_medicamentos (com_num_medicamentos d x))%Z.
Proof.
  unfold pts_medicamentos; cbn [com_num_medicamentos num_medicamentos]. degraus.
Qed.

Lemma pts_visitas_mono d x :
  (visitas_anuais d <= x)%Z ->
  (pts_visitas d <= pts_visitas (com_visitas_anuais d x))%Z.
Proof. unfold pts_visitas; cbn [com_visitas_anuais visitas_anuais]. degraus. Qed.

Lemma pts_sintomas_mono d s :
  (pts_sintomas d <= pts_sintomas (com_sintoma d s))%Z.
Proof.
  unfold pts_sintomas; cbn [com_sintoma dor_peito falta_ar fadiga tontura].
  destruct s, (dor_peito d), (falta_ar d), (fadiga d), (tontura d); lia.
Qed.

Lemma bmi_arredondado_mono d x :
  Valido d -> peso d <= x ->
  bmi_arredondado d <= bmi_arredondado (com_peso d x).
Proof.
  intros V H. unfold bmi_arredondado; cbn [com_peso peso altura].
  apply py_round_2_mono. unfold Qdiv.
  apply Qmult_le_compat_r; [exact H |].
  apply Qinv_le_0_compat. pose proof (v_altura d V). simpl. nra.
Qed.

(** The rungs that read a field left untouched give the same hundredths. *)
Ltac inalterados X d :=
  try change (bmi_arredondado X) with (bmi_arredondado d);
  try change (pts_idade X) with (pts_idade d);
  try change (pts_pressao X) with (pts_pressao d);
  try change (pts_colesterol X) with (pts_colesterol d);
  try change (pts_glicose X) with (pts_glicose d);
  try change (pts_sintomas X) with (pts_sintomas d);
  try change (pts_medicamentos X) with (pts_medicamentos d);
  try change (pts_visitas X) with (pts_visitas d);
  try change (pts_genero X) with (pts_genero d).

(** One more severe factor never lowers the number of hundredths. *)
Lemma pontos_mono d d' :
  Valido d -> mais_severo d d' ->
  (pontos d (bmi_arredondado d) <= pontos d' (bmi_arredondado d'))%Z.
Proof.
  intros V S. unfold pontos.
  destruct S as [x H | x H | x H | x H | x H | x H | x H | x H | s H].
  - pose proof (pts_idade_mono d x H). inalterados (com_idade d x) d. lia.
  - pose proof (pts_pressao_mono_sistolica d x H).
    inalterados (com_pressao_sistolica d x) d. lia.
  - pose proof (pts_pressao_mono_diastolica d x H).
    inalterados (com_pressao_diastolica d x) d. lia.
  - pose proof (pts_bmi_mono _ _ (bmi_arredondado_mono d x V H)).
    inalterados (com_peso d x) d. lia.
  - pose proof (pts_colesterol_mono d x H). inalterados (com_colesterol d x) d. lia.
  - pose proof (pts_glicose_mono d x H). inalterados (com_glicose d x) d. lia.
  - pose proof (pts_medicamentos_mono d x H).
    inalterados (com_num_medicamentos d x) d. lia.
  - pose proof (pts_visitas_mono d x H).
    inalterados (com_visitas_anuais d x) d. lia.
  - pose proof (pts_sintomas_mono d s). inalterados (com_sintoma d s) d. lia.
Qed.

(** C5: of two valid records that differ in one risk factor only (age,
    systolic or diastolic pressure, weight and so BMI, cholesterol, glucose,
    number of medicines, yearly visits, or one symptom flag turned on), the
    one with the more severe value never receives the smaller score. *)
Theorem C5_score_monotono (d d' : PacienteInput) :
  valido d = true ->
  valido d' = true ->
  mais_severo d d' ->
  exists r r',
    Main.calcular_risco_avancado d = Some r
    /\ Main.calcular_risco_avancado d' = Some r'
    /\ score_de r <= score_de r'.
Proof.
  intros V V' S. apply valido_Valido in V, V'.
  destruct (main_resultado d V) as (r & n & E & Hn & Hs & _).
  destruct (main_resultado d' V') as (r' & n' & E' & Hn' & Hs' & _).
  exists r, r'. split; [exact E |]. split; [exact E' |].
  pose proof (pontos_mono d d' V S) as Hp. rewrite <- Hn, <- Hn' in Hp.
  apply centesimos_le in Hp.
  minmax; lra.
Qed.

Lemma C5_testemunha :
  valido exemplo_baixo_risco = true
  /\ valido (com_idade exemplo_baixo_risco 80) = true
  /\ exists r r',
      Main.calcular_risco_avancado exemplo_baixo_risco = Some r
      /\ Main.calcular_risco_avancado (com_idade exemplo_baixo_risco 80) = Some r'
      /\ score_de r <= score_de r'.
Proof.
  split; [reflexivity |]. split; [reflexivity |].
  apply (C5_score_monotono exemplo_baixo_risco (com_idade exemplo_baixo_risco 80));
    [reflexivity | reflexivity |].
  apply sev_idade. simpl. lia.
Defined.

Lemma C2_testemunha :
  valido exemplo_alto_risco = true
  /\ exists r,
      Main.calcular_risco_avancado exemplo_alto_risco = Some r
      /\ 0 <= score_de r <= 1
      /\ 0.01 <= probabilidade_de r <= 0.99.
Proof.
  split; [reflexivity |].
  apply (C2_score_e_probabilidade_limitados exemplo_alto_risco). reflexivity.
Defined.


(** ** The four copies of the scorer *)

Lemma final_igual_main d :
  Final.calcular_risco_avancado d = Main.calcular_risco_avancado d.
Proof. reflexivity. Qed.

Lemma windows_igual_main d :
  Windows.calcular_risco_avancado d = Main.calcular_risco_avancado d.
Proof. reflexivity. Qed.

Lemma corrigida_soma_escada dados :
  Corrigida.soma_incrementos dados =
  match Corrigida.calcular_bmi (peso dados) (altura dados) with
  | None => None
  | Some (bmi, _) => Some (escada dados bmi)
  end.
Proof. reflexivity. Qed.

Lemma corrigida_soma_main d :
  Corrigida.soma_incrementos d = Main.soma_incrementos d.
Proof.
  rewrite corrigida_soma_escada, main_soma_escada.
  unfold Corrigida.calcular_bmi, Main.calcular_bmi.
  destruct (Qeq_bool (altura d ^ 2) 0); reflexivity.
Qed.

(** C6, as amended: the copies in api_medica_final.py and
    api_medica_windows.py return the very tuple that backend/main.py returns,
    on every input; the copy in api_medica_corrigida.py returns the same
    probability, score and confidence, and the same category label except
    that it spells the medium one with an accent, "Médio Risco", where the
    other three return "Medio Risco". *)
Theorem C6_copias_do_avaliador (d : PacienteInput) :
  Final.calcular_risco_avancado d = Main.calcular_risco_avancado d
  /\ Windows.calcular_risco_avancado d = Main.calcular_risco_avancado d
  /\ match Main.calcular_risco_avancado d,
           Corrigida.calcular_risco_avancado d with
     | Some (c, p, s, cf), Some (c', p', s', cf') =>
         p' = p /\ s' = s /\ cf' = cf
         /\ c' = (if (c =? "Medio Risco")%string then "Médio Risco" else c)
     | None, None => True
     | _, _ => False
     end.
Proof.
  split; [apply final_igual_main |]. split; [apply windows_igual_main |].
  unfold Main.calcular_risco_avancado, Corrigida.calcular_risco_avancado.
  rewrite corrigida_soma_main.
  destruct (Main.soma_incrementos d) as [soma |]; [| exact I].
  cbv zeta. generalize (Qmin soma 1.0) as s. intro s.
  destruct (s >=? 0.75); [| destruct (s >=? 0.45)];
    cbv beta iota; repeat split.
Qed.

(** The claim as first stated fails on the medium-risk example: main.py
    answers "Medio Risco" and api_medica_corrigida.py answers "Médio Risco". *)
Lemma C6_contraexemplo :
  valido exemplo_medio_risco = true
  /\ (exists r r',
        Main.calcular_risco_avancado exemplo_medio_risco = Some r
        /\ Corrigida.calcular_risco_avancado exemplo_medio_risco = Some r'
        /\ categoria_de r = "Medio Risco"
        /\ categoria_de r' = "Médio Risco")
  /\ Main.calcular_risco_avancado exemplo_medio_risco
     <> Corrigida.calcular_risco_avancado exemplo_medio_risco.
Proof.
  split; [reflexivity |]. split.
  - eexists. eexists.
    split; [vm_compute; reflexivity |].
    split; [vm_compute; reflexivity |].
    split; reflexivity.
  - vm_compute. intro H. discriminate H.
Qed.

(** ** The BMI that the scorer reads *)


(** ** The dashboard against the API *)

Lemma dash_limiares dados :
  (0.7 <= Dashboard.score (Dashboard.calcular_risco_simulado dados) ->
   Dashboard.categoria (Dashboard.calcular_risco_simulado dados) = "Alto Risco")
  /\ (0.4 <= Dashboard.score (Dashboard.calcular_risco_simulado dados) < 0.7 ->
      Dashboard.categoria (Dashboard.calcular_risco_simulado dados) = "Médio Risco")
  /\ (Dashboard.score (Dashboard.calcular_risco_simulado dados) < 0.4 ->
      Dashboard.categoria (Dashboard.calcular_risco_simulado dados) = "Baixo Risco").
Proof.
  unfold Dashboard.calcular_risco_simulado. cbv zeta.
  match goal with |- context [Qgeb ?s 0.7] => generalize s end.
  intro s.
  destruct (Qgeb_spec s 0.7); [| destruct (Qgeb_spec s 0.4)];
    cbn [Dashboard.score Dashboard.categoria];
    repeat split; intros; try reflexivity; exfalso; lra.
Qed.

Lemma dash_sem_genero dados g :
  Dashboard.calcular_risco_simulado (dash_com_genero dados g)
  = Dashboard.calcular_risco_simulado dados.
Proof.
  unfold Dashboard.calcular_risco_simulado.
  cbv beta iota delta [dash_com_genero Dashboard.idade
    Dashboard.pressao_sistolica Dashboard.pressao_diastolica Dashboard.bmi
    Dashboard.colesterol Dashboard.glicose Dashboard.dor_peito
    Dashboard.falta_ar Dashboard.fadiga Dashboard.tontura].
  reflexivity.
Qed.

(** C10: the dashboard scorer is not the API scorer.  On the same patient (a
    man of 55, cholesterol 200, glucose 100, nothing else) the API answers
    medium risk and the dashboard low risk; the dashboard cuts its categories
    at 0.7 and 0.4, ignores the gender, and lets the score exceed 1.0. *)
Theorem C10_dashboard_diverge :
  (valido paciente_divergente = true
   /\ exists r dados,
       Main.calcular_risco_avancado paciente_divergente = Some r
       /\ score_de r == 0.45
       /\ categoria_de r = "Medio Risco"
       /\ dados_divergentes = Some dados
       /\ Dashboard.score (Dashboard.calcular_risco_simulado dados) == 0.2
       /\ Dashboard.categoria (Dashboard.calcular_risco_simulado dados)
          = "Baixo Risco")
  /\ (forall dados,
       (0.7 <= Dashboard.score (Dashboard.calcular_risco_simulado dados) ->
        Dashboard.categoria (Dashboard.calcular_risco_simulado dados)
        = "Alto Risco")
       /\ (0.4 <= Dashboard.score (Dashboard.calcular_risco_simulado dados) < 0.7 ->
           Dashboard.categoria (Dashboard.calcular_risco_simulado dados)
           = "Médio Risco")
       /\ (Dashboard.score (Dashboard.calcular_risco_simulado dados) < 0.4 ->
           Dashboard.categoria (Dashboard.calcular_risco_simulado dados)
           = "Baixo Risco"))
  /\ (forall dados g,
       Dashboard.calcular_risco_simulado (dash_com_genero dados g)
       = Dashboard.calcular_risco_simulado dados)
  /\ (exists r r',
       Main.calcular_risco_avancado
         (com_genero paciente_divergente "Feminino") = Some r
       /\ Main.calcular_risco_avancado paciente_divergente = Some r'
       /\ score_de r' == score_de r + 0.05)
  /\ (exists dados,
       dados_graves = Some dados
       /\ Dashboard.score (Dashboard.calcular_risco_simulado dados) == 1.48
       /\ 1 < Dashboard.score (Dashboard.calcular_risco_simulado dados)).
Proof.
  split; [| split; [| split; [| split]]].
  - split; [reflexivity |].
    eexists. eexists.
    split; [vm_compute; reflexivity |].
    split; [vm_compute; reflexivity |].
    split; [reflexivity |].
    split; [vm_compute; reflexivity |].
    split; vm_compute; reflexivity.
  - exact dash_limiares.
  - exact dash_sem_genero.
  - eexists. eexists.
    split; [vm_compute; reflexivity |].
    split; [vm_compute; reflexivity |].
    vm_compute; reflexivity.
  - eexists.
    split; [vm_compute; reflexivity |].
    split; vm_compute; reflexivity.
Qed.

(** ** Sorting by descending key *)

Section Ordenacao.

Context {A : Type}.
Variable key : A -> Q.

Let desc (a b : A) : Prop := key b <= key a.

Lemma inserir_perm (x : A) (l : list A) : Permutation (x :: l) (inserir key x l).
Proof.
  induction l as [| y l IH]; simpl; [reflexivity |].
  destruct (key x <? key y); [| reflexivity].
  rewrite perm_swap. now apply perm_skip.
Qed.

Lemma inserir_sorted (x : A) (l : list A) :
  StronglySorted desc l -> StronglySorted desc (inserir key x l).
Proof.
  induction 1 as [| y l Hs IH Hy]; simpl.
  - constructor; constructor.
  - destruct (Qltb_spec (key x) (key y)) as [Hlt | Hge].
    + constructor; [exact IH |].
      rewrite <- (inserir_perm x l).
      constructor; [unfold desc; lra | exact Hy].
    + constructor; [constructor; assumption |].
      constructor; [exact Hge |].
      eapply Forall_impl; [| exact Hy].
      unfold desc. intros z Hz. lra.
Qed.

Lemma sort_reverse_perm (l : list A) : Permutation l (sort_reverse key l).
Proof.
  induction l as [| x l IH]; simpl; [reflexivity |].
  rewrite <- inserir_perm. now apply perm_skip.
Qed.

Lemma sort_reverse_sorted (l : list A) : StronglySorted desc (sort_reverse key l).
Proof.
  induction l as [| x l IH]; simpl; [constructor |].
  now apply inserir_sorted.
Qed.

Lemma sorted_app_inv (l1 l2 : list A) :
  StronglySorted desc (l1 ++ l2) ->
  StronglySorted desc l1
  /\ (forall x y, In x l1 -> In y l2 -> key y <= key x).
Proof.
  induction l1 as [| a l1 IH]; simpl; intro H.
  - split; [constructor | intros x y []].
  - apply StronglySorted_inv in H. destruct H as [Hs Ha].
    destruct (IH Hs) as [H1 H2].
    apply Forall_app in Ha. destruct Ha as [Ha1 Ha2].
    split; [constructor; assumption |].
    intros x y [<- | Hx] Hy.
    + rewrite Forall_forall in Ha2. exact (Ha2 y Hy).
    + exact (H2 x y Hx Hy).
Qed.

(** The first [n] of the sorted list: sorted, part of the input, and no
    element left out has a larger key than one that was kept. *)
Lemma top_sort_reverse (n : nat) (l : list A) :
  StronglySorted desc (firstn n (sort_reverse key l))
  /\ (length (firstn n (sort_reverse key l)) <= n)%nat
  /\ (forall x, In x (firstn n (sort_reverse key l)) -> In x l)
  /\ (forall y, In y l ->
        In y (firstn n (sort_reverse key l))
        \/ forall x, In x (firstn n (sort_reverse key l)) -> key y <= key x).
Proof.
  pose proof (sort_reverse_sorted l) as Hs.
  pose proof (sort_reverse_perm l) as Hp.
  rewrite <- (firstn_skipn n (sort_reverse key l)) in Hs.
  destruct (sorted_app_inv _ _ Hs) as [H1 H2].
  split; [exact H1 |].
  split; [apply firstn_le_length |].
  split.
  - intros x Hx. apply (Permutation_in x (Permutation_sym Hp)).
    rewrite <- (firstn_skipn n (sort_reverse key l)).
    apply in_or_app. now left.
  - intros y Hy. apply (Permutation_in y Hp) in Hy.
    rewrite <- (firstn_skipn n (sort_reverse key l)) in Hy.
    apply in_app_or in Hy. destruct Hy as [Hy | Hy]; [now left | right].
    intros x Hx. exact (H2 x y Hx Hy).
Qed.

End Ordenacao.

(** ** The explanation builders *)

Lemma corrigida_bmi_valido d :
  Valido d ->
  exists c,
    Corrigida.calcular_bmi (peso d) (altura d) = Some (bmi_arredondado d, c).
Proof.
  intros V. unfold Corrigida.calcular_bmi.
  rewrite altura_nao_nula by apply (v_altura d V).
  eexists. reflexivity.
Qed.

(** main.py: one tuple for each of the four tests that holds, in the order
    of the tests. *)
Lemma main_fatores_emitidos repr_float fmt_1f d resultado :
  Valido d ->
  exists e,
    Main.gerar_explicacoes_shap repr_float fmt_1f d resultado = Some e
    /\ map fator (fatores_risco e) = limiares_cruzados_shap d (bmi_arredondado d).
Proof.
  intro V. unfold Main.gerar_explicacoes_shap, limiares_cruzados_shap.
  destruct (main_bmi_valido d V) as [c ->].
  generalize (bmi_arredondado d) as bmi. intro bmi.
  eexists. split; [reflexivity |].
  cbn [fatores_risco].
  destruct (idade d >? 50)%Z, (pressao_sistolica d >? 140), (bmi >? 30),
    (dor_peito d); reflexivity.
Qed.

(** api_medica_corrigida.py: the tuples emitted, then sorted and cut at
    five. *)
Lemma corrigida_fatores_emitidos repr_float d cat sc :
  Valido d ->
  exists emitidos protecao,
    Corrigida.gerar_explicacoes_detalhadas repr_float d cat sc
    = Some (firstn 5 (sort_reverse impacto emitidos),
            firstn 3 (sort_reverse (fun x => Qabs (impacto x)) protecao))
    /\ map fator emitidos = limiares_cruzados_detalhadas d (bmi_arredondado d).
Proof.
  intro V.
  unfold Corrigida.gerar_explicacoes_detalhadas, limiares_cruzados_detalhadas.
  destruct (corrigida_bmi_valido d V) as [c ->].
  generalize (bmi_arredondado d) as bmi. intro bmi.
  generalize (Corrigida.classificar_pressao (pressao_sistolica d)
                (pressao_diastolica d)) as cp. intro cp.
  cbv beta iota zeta.
  (* 1. IDADE *)
  match goal with |- context [match ?p with pair _ _ => _ end] =>
    assert (H1 : exists l q, p = (l, q)
              /\ map fator l
                 = (if (idade d >=? 65)%Z then ["Idade Avançada"]
                    else if (idade d >=? 45)%Z then ["Idade Intermediária"]
                    else []))
      by (destruct (idade d >=? 65)%Z; [| destruct (idade d >=? 45)%Z];
          eexists; eexists; split; reflexivity)
  end.
  destruct H1 as (l1 & q1 & -> & Hn1). cbv beta iota.
  (* 2. PRESSAO ARTERIAL *)
  match goal with |- context [match ?p with pair _ _ => _ end] =>
    assert (H2 : exists l q, p = (l, q)
              /\ map fator l
                 = (map fator l1
                    ++ (if pertence cp ["Hipertensão Estágio 2"; "Crise Hipertensiva"]
                        then ["Hipertensão Severa"]
                        else if (cp =? "Hipertensão Estágio 1")%string
                        then ["Hipertensão Leve"] else []))%list)
      by (destruct (pertence cp ["Hipertensão Estágio 2"; "Crise Hipertensiva"]);
          [| destruct (cp =? "Hipertensão Estágio 1")%string;
             [| destruct (cp =? "Normal")%string]];
          eexists; eexists; (split; [reflexivity |]);
          unfold append; rewrite ?map_app, ?app_nil_r; reflexivity)
  end.
  destruct H2 as (l2 & q2 & -> & Hn2). cbv beta iota.
  (* 3. BMI E OBESIDADE *)
  match goal with |- context [match ?p with pair _ _ => _ end] =>
    assert (H3 : exists l q, p = (l, q)
              /\ map fator l
                 = (map fator l2
                    ++ (if bmi >=? 30 then ["Obesidade"]
                        else if bmi >=? 25 then ["Sobrepeso"] else []))%list)
      by (destruct (bmi >=? 30);
          [| destruct (bmi >=? 25); [| destruct (bmi >=? 18.5)]];
          eexists; eexists; (split; [reflexivity |]);
          unfold append; rewrite ?map_app, ?app_nil_r; reflexivity)
  end.
  destruct H3 as (l3 & q3 & -> & Hn3). cbv beta iota.
  (* 4-6. COLESTEROL, GLICOSE, SINTOMAS *)
  rewrite !app_assoc, <- Hn1, <- Hn2, <- Hn3, <- !app_assoc.
  (destruct (colesterol d >=? 240); [| destruct (colesterol d >=? 200)]);
  (destruct (glicose d >=? 126); [| destruct (glicose d >=? 100)]);
  destruct (dor_peito d), (falta_ar d), (fadiga d);
  (eexists; eexists; (split; [reflexivity |]);
   unfold append; rewrite ?map_app, <- ?app_assoc; cbn [map app fator];
   rewrite ?app_nil_r; reflexivity).
Qed.




(** * Further properties of the code *)

(** ** The scorer outside the validated range *)

Lemma quadrado_nulo (a : Q) : Qeq_bool (a ^ 2) 0 = true <-> a == 0.
Proof.
  rewrite Qeq_bool_iff. simpl. split; intro H.
  - destruct (Qmult_integral _ _ H); assumption.
  - rewrite H. reflexivity.
Qed.


(** ** Range of the accumulated sum *)


(** ** Probability and category along a more severe record *)

Lemma main_resultado_n d :
  Valido d ->
  exists r n,
    Main.calcular_risco_avancado d = Some r
    /\ n = pontos d (bmi_arredondado d)
    /\ (0 <= n)%Z
    /\ ((n <= 44)%Z /\ categoria_de r = "Baixo Risco"
        /\ probabilidade_de r == Qmax 0.01 (centesimos n * 0.67)
        \/ (45 <= n <= 74)%Z /\ categoria_de r = "Medio Risco"
           /\ probabilidade_de r == 0.30 + (centesimos n - 0.45) * 1.83
        \/ (75 <= n)%Z /\ categoria_de r = "Alto Risco"
           /\ probabilidade_de r
              == Qmin 0.99 (0.85 + (Qmin (centesimos n) 1 - 0.75) * 0.6)).
Proof.
  intro V.
  destruct (main_resultado d V) as (r & n & E & Hn & Hs & Ha & Hm & Hb).
  pose proof (pontos_bounds d (bmi_arredondado d)) as Hb0. rewrite <- Hn in Hb0.
  exists r, n. split; [exact E |]. split; [exact Hn |]. split; [lia |].
  assert (H0 : 0 <= centesimos n) by (unfold centesimos, Qle; simpl; lia).
  destruct (Z_lt_le_dec n 45) as [L | L]; [| destruct (Z_lt_le_dec n 75) as [M | M]].
  - left. split; [lia |].
    pose proof (centesimos_le n 44 ltac:(lia)) as Hc. change (centesimos 44) with 0.44 in Hc.
    assert (Hs' : score_de r == centesimos n) by (clear Ha Hm Hb; minmax; lra).
    destruct Hb as (Hcat & Hp & _); [lra |].
    split; [exact Hcat |]. rewrite Hp, Hs'. clear Ha Hm Hp. minmax; lra.
  - right; left. split; [lia |].
    pose proof (centesimos_le 45 n ltac:(lia)) as Hc1. change (centesimos 45) with 0.45 in Hc1.
    pose proof (centesimos_le n 74 ltac:(lia)) as Hc2. change (centesimos 74) with 0.74 in Hc2.
    assert (Hs' : score_de r == centesimos n) by (clear Ha Hm Hb; minmax; lra).
    destruct Hm as (Hcat & Hp & _); [lra |].
    split; [exact Hcat |]. rewrite Hp, Hs'. clear Ha Hb Hp. minmax; lra.
  - right; right. split; [lia |].
    pose proof (centesimos_le 75 n ltac:(lia)) as Hc. change (centesimos 75) with 0.75 in Hc.
    assert (Hs' : 0.75 <= score_de r) by (clear Ha Hm Hb; minmax; lra).
    destruct Ha as (Hcat & Hp & _); [lra |].
    split; [exact Hcat |]. rewrite Hp, Hs. clear Hm Hb Hp Hs Hs'. minmax; lra.
Qed.

(** X3: of two valid records that differ in one risk factor only, the more
    severe one never receives a smaller probability nor a lower category. *)
Theorem X3_probabilidade_e_categoria_monotonas (d d' : PacienteInput) :
  valido d = true ->
  valido d' = true ->
  mais_severo d d' ->
  exists r r',
    Main.calcular_risco_avancado d = Some r
    /\ Main.calcular_risco_avancado d' = Some r'
    /\ probabilidade_de r <= probabilidade_de r'
    /\ (categoria_de r = "Alto Risco" -> categoria_de r' = "Alto Risco")
    /\ (categoria_de r' = "Baixo Risco" -> categoria_de r = "Baixo Risco").
Proof.
  intros V V' S. apply valido_Valido in V, V'.
  destruct (main_resultado_n d V) as (r & n & E & Hn & H0 & Hc).
  destruct (main_resultado_n d' V') as (r' & n' & E' & Hn' & H0' & Hc').
  pose proof (pontos_mono d d' V S) as Hp. rewrite <- Hn, <- Hn' in Hp.
  pose proof (centesimos_le _ _ Hp) as Hq.
  assert (Hz : 0 <= centesimos n) by (unfold centesimos, Qle; simpl; lia).
  exists r, r'. split; [exact E |]. split; [exact E' |].
  destruct Hc as [(L & C & P) | [(L & C & P) | (L & C & P)]];
    destruct Hc' as [(L' & C' & P') | [(L' & C' & P') | (L' & C' & P')]];
    try (exfalso; lia); rewrite C, C';
    (split; [| split; intro; first [reflexivity | discriminate]]);
    rewrite P, P'.
  - minmax; lra.
  - pose proof (centesimos_le n 44 ltac:(lia)) as H1. change (centesimos 44) with 0.44 in H1.
    pose proof (centesimos_le 45 n' ltac:(lia)) as H2. change (centesimos 45) with 0.45 in H2.
    minmax; lra.
  - pose proof (centesimos_le n 44 ltac:(lia)) as H1. change (centesimos 44) with 0.44 in H1.
    pose proof (centesimos_le 75 n' ltac:(lia)) as H2. change (centesimos 75) with 0.75 in H2.
    minmax; lra.
  - lra.
  - pose proof (centesimos_le n 74 ltac:(lia)) as H1. change (centesimos 74) with 0.74 in H1.
    pose proof (centesimos_le 75 n' ltac:(lia)) as H2. change (centesimos 75) with 0.75 in H2.
    minmax; lra.
  - minmax; lra.
Qed.

Lemma X3_testemunha :
  valido exemplo_baixo_risco = true
  /\ valido (com_idade exemplo_baixo_risco 80) = true
  /\ exists r r',
      Main.calcular_risco_avancado exemplo_baixo_risco = Some r
      /\ Main.calcular_risco_avancado (com_idade exemplo_baixo_risco 80) = Some r'
      /\ probabilidade_de r <= probabilidade_de r'.
Proof.
  split; [reflexivity |]. split; [reflexivity |].
  destruct (X3_probabilidade_e_categoria_monotonas exemplo_baixo_risco
              (com_idade exemplo_baixo_risco 80) eq_refl eq_refl)
    as (r & r' & E & E' & H & _).
  - apply sev_idade. simpl. lia.
  - exists r, r'. split; [exact E |]. split; [exact E' | exact H].
Defined.

(** ** The blood-pressure label *)

Ltac decidir :=
  repeat match goal with
  | |- _ /\ _ => split
  | |- _ <-> _ => split
  | |- _ -> _ => intro
  | H : _ /\ _ |- _ => destruct H
  | H : _ \/ _ |- _ => destruct H
  | H : ~ _ |- _ => apply H; clear H
  end;
  try reflexivity; try discriminate;
  first [ lra
        | exfalso; lra
        | left; lra
        | right; lra
        | left; split; [lra | left; lra]
        | left; split; [lra | right; lra]
        | right; split; lra
        | intro; decidir ].

Lemma classificar_pressao_casos (s d : Q) :
  (Main.classificar_pressao s d = "Normal" <-> s < 120 /\ d < 80)
  /\ (Main.classificar_pressao s d = "Elevada" <-> 120 <= s < 130 /\ d < 80)
  /\ (Main.classificar_pressao s d = "Hipertensao Estagio 1"
      <-> 130 <= s < 140 \/ 80 <= d < 90)
  /\ (Main.classificar_pressao s d = "Hipertensao Estagio 2"
      <-> (140 <= s < 180 /\ (d < 80 \/ 90 <= d))
          \/ (90 <= d < 120 /\ (s < 130 \/ 140 <= s)))
  /\ (Main.classificar_pressao s d = "Crise Hipertensiva"
      <-> (180 <= s /\ (d < 80 \/ 120 <= d)) \/ (s < 130 /\ 120 <= d)).
Proof.
  unfold Main.classificar_pressao.
  destruct (Qlt_le_dec s 120), (Qlt_le_dec s 130), (Qlt_le_dec s 140),
    (Qlt_le_dec s 180), (Qlt_le_dec d 80), (Qlt_le_dec d 90),
    (Qlt_le_dec d 120); try (exfalso; lra);
  repeat (ramo; try (exfalso; lra); cbn [orb andb negb]); decidir.
Qed.

(** X4: which pressures receive which label.  The tests run in the order
    normal, elevated, stage 1, stage 2, so any diastolic in [80, 90) or
    systolic in [130, 140) is labelled stage 1 whatever the other reading is,
    and "Crise Hipertensiva" is left for the readings that no earlier test
    takes. *)
Theorem X4_rotulo_da_pressao (s d : Q) :
  (Main.classificar_pressao s d = "Normal" <-> s < 120 /\ d < 80)
  /\ (Main.classificar_pressao s d = "Elevada" <-> 120 <= s < 130 /\ d < 80)
  /\ (Main.classificar_pressao s d = "Hipertensao Estagio 1"
      <-> 130 <= s < 140 \/ 80 <= d < 90)
  /\ (Main.classificar_pressao s d = "Hipertensao Estagio 2"
      <-> (140 <= s < 180 /\ (d < 80 \/ 90 <= d))
          \/ (90 <= d < 120 /\ (s < 130 \/ 140 <= s)))
  /\ (Main.classificar_pressao s d = "Crise Hipertensiva"
      <-> (180 <= s /\ (d < 80 \/ 120 <= d)) \/ (s < 130 /\ 120 <= d)).
Proof. exact (classificar_pressao_casos s d). Qed.


(** X5: the label against the increment that the scorer adds for the same
    two readings.  "Normal" and "Elevada" are exactly the readings that add
    0 and 0.05; "Crise Hipertensiva" always comes with the 0.30 of the top
    band; but a stage 1 or stage 2 label only bounds the increment from below:
    systolic 185 with diastolic 85 is labelled stage 1 and scores 0.30. *)
Theorem X5_rotulo_e_incremento_da_pressao (d : PacienteInput) :
  (Main.classificar_pressao (pressao_sistolica d) (pressao_diastolica d)
   = "Normal" <-> passo_pressao d 0 == 0)
  /\ (Main.classificar_pressao (pressao_sistolica d) (pressao_diastolica d)
      = "Elevada" <-> passo_pressao d 0 == 0.05)
  /\ (Main.classificar_pressao (pressao_sistolica d) (pressao_diastolica d)
      = "Hipertensao Estagio 1" -> 0.15 <= passo_pressao d 0)
  /\ (Main.classificar_pressao (pressao_sistolica d) (pressao_diastolica d)
      = "Hipertensao Estagio 2" -> 0.25 <= passo_pressao d 0)
  /\ (Main.classificar_pressao (pressao_sistolica d) (pressao_diastolica d)
      = "Crise Hipertensiva" -> passo_pressao d 0 == 0.30)
  /\ (valido exemplo_sistolica_185 = true
      /\ Main.classificar_pressao (pressao_sistolica exemplo_sistolica_185)
           (pressao_diastolica exemplo_sistolica_185) = "Hipertensao Estagio 1"
      /\ passo_pressao exemplo_sistolica_185 0 == 0.30).
Proof.
  assert (Hex : valido exemplo_sistolica_185 = true
      /\ Main.classificar_pressao (pressao_sistolica exemplo_sistolica_185)
           (pressao_diastolica exemplo_sistolica_185) = "Hipertensao Estagio 1"
      /\ passo_pressao exemplo_sistolica_185 0 == 0.30)
    by (split; [reflexivity | split; vm_compute; reflexivity]).
  (split; [| split; [| split; [| split; [| split; [| exact Hex]]]]]);
    unfold Main.classificar_pressao, passo_pressao;
    generalize (pressao_sistolica d) as s, (pressao_diastolica d) as p;
    clear Hex; intros s p;
    destruct (Qlt_le_dec s 120), (Qlt_le_dec s 130), (Qlt_le_dec s 140),
      (Qlt_le_dec s 180), (Qlt_le_dec p 80), (Qlt_le_dec p 90),
      (Qlt_le_dec p 120); try (exfalso; lra);
    repeat (ramo; try (exfalso; lra); cbn [orb andb negb]);
    try split; intros; try reflexivity; try discriminate; lra.
Qed.

(** ** The BMI label against the rounded BMI *)

Lemma py_round_2_centesimos (n : Z) : py_round (centesimos n) 2 == centesimos n.
Proof.
  rewrite py_round_2.
  assert (E : centesimos n * 100 == inject_Z n)
    by (unfold centesimos, Qeq; simpl; lia).
  assert (R : round_half_even (centesimos n * 100) = n).
  { unfold round_half_even. rewrite (Qfloor_comp _ _ E), Qfloor_Z.
    cbv zeta. destruct (Qltb_spec (centesimos n * 100 - inject_Z n) (1 # 2));
      [reflexivity | exfalso; lra]. }
  rewrite R. unfold centesimos, Qeq, Qdiv, Qmult, Qinv, inject_Z. simpl. lia.
Qed.

(** X6: the two values that [calcular_bmi] returns agree up to the bounds of
    the bands: the label is computed from the raw quotient and the number is
    that quotient rounded, so the number lies in the closed band of the label
    (it can sit on the upper bound, as 25.0 labelled "Peso normal"). *)
Theorem X6_rotulo_e_valor_do_bmi (p a b : Q) (c : string) :
  Main.calcular_bmi p a = Some (b, c) ->
  (c = "Abaixo do peso" /\ b <= 18.5)
  \/ (c = "Peso normal" /\ 18.5 <= b <= 25)
  \/ (c = "Sobrepeso" /\ 25 <= b <= 30)
  \/ (c = "Obesidade Grau I" /\ 30 <= b <= 35)
  \/ (c = "Obesidade Grau II" /\ 35 <= b <= 40)
  \/ (c = "Obesidade Grau III (Morbida)" /\ 40 <= b).
Proof.
  unfold Main.calcular_bmi.
  destruct (Qeq_bool (a ^ 2) 0); [discriminate |].
  generalize (p / a ^ 2) as x. intros x H. cbv zeta in H.
  injection H as <- <-.
  pose proof (py_round_2_centesimos 1850) as E1.
  pose proof (py_round_2_centesimos 2500) as E2.
  pose proof (py_round_2_centesimos 3000) as E3.
  pose proof (py_round_2_centesimos 3500) as E4.
  pose proof (py_round_2_centesimos 4000) as E5.
  pose proof (py_round_2_mono x (centesimos 1850)) as U1.
  pose proof (py_round_2_mono (centesimos 1850) x) as L1.
  pose proof (py_round_2_mono x (centesimos 2500)) as U2.
  pose proof (py_round_2_mono (centesimos 2500) x) as L2.
  pose proof (py_round_2_mono x (centesimos 3000)) as U3.
  pose proof (py_round_2_mono (centesimos 3000) x) as L3.
  pose proof (py_round_2_mono x (centesimos 3500)) as U4.
  pose proof (py_round_2_mono (centesimos 3500) x) as L4.
  pose proof (py_round_2_mono x (centesimos 4000)) as U5.
  pose proof (py_round_2_mono (centesimos 4000) x) as L5.
  assert (C1 : centesimos 1850 == 18.5) by reflexivity.
  assert (C2 : centesimos 2500 == 25) by reflexivity.
  assert (C3 : centesimos 3000 == 30) by reflexivity.
  assert (C4 : centesimos 3500 == 35) by reflexivity.
  assert (C5 : centesimos 4000 == 40) by reflexivity.
  generalize dependent (py_round x 2). intros b.
  generalize dependent (py_round (centesimos 1850) 2).
  generalize dependent (py_round (centesimos 2500) 2).
  generalize dependent (py_round (centesimos 3000) 2).
  generalize dependent (py_round (centesimos 3500) 2).
  generalize dependent (py_round (centesimos 4000) 2).
  intros.
  repeat (ramo; try (exfalso; lra); simpl).
  - left. split; [reflexivity | lra].
  - right; left. split; [reflexivity | lra].
  - right; right; left. split; [reflexivity | lra].
  - right; right; right; left. split; [reflexivity | lra].
  - right; right; right; right; left. split; [reflexivity | lra].
  - right; right; right; right; right. split; [reflexivity | lra].
Qed.

Lemma X6_testemunha :
  exists b c,
    Main.calcular_bmi 24.996 1.0 = Some (b, c)
    /\ ((c = "Abaixo do peso" /\ b <= 18.5)
        \/ (c = "Peso normal" /\ 18.5 <= b <= 25)
        \/ (c = "Sobrepeso" /\ 25 <= b <= 30)
        \/ (c = "Obesidade Grau I" /\ 30 <= b <= 35)
        \/ (c = "Obesidade Grau II" /\ 35 <= b <= 40)
        \/ (c = "Obesidade Grau III (Morbida)" /\ 40 <= b)).
Proof.
  eexists. eexists.
  assert (E : Main.calcular_bmi 24.996 1.0
              = Some (py_round (24.996 / 1.0 ^ 2) 2, "Peso normal"))
    by reflexivity.
  split; [exact E |].
  exact (X6_rotulo_e_valor_do_bmi _ _ _ _ E).
Defined.

(** ** The endpoint [/predicao] *)

Lemma round_half_even_comp (x y : Q) :
  x == y -> round_half_even x = round_half_even y.
Proof.
  intro E. unfold round_half_even. rewrite (Qfloor_comp _ _ E). cbv zeta.
  destruct (Qltb_spec (x - inject_Z (Qfloor y)) (1 # 2)),
    (Qltb_spec (y - inject_Z (Qfloor y)) (1 # 2)); try (exfalso; lra);
    [reflexivity |].
  destruct (Qltb_spec (1 # 2) (x - inject_Z (Qfloor y))),
    (Qltb_spec (1 # 2) (y - inject_Z (Qfloor y))); try (exfalso; lra);
    reflexivity.
Qed.

Lemma round_half_even_Z (k : Z) : round_half_even (inject_Z k) = k.
Proof.
  unfold round_half_even. rewrite Qfloor_Z. cbv zeta.
  destruct (Qltb_spec (inject_Z k - inject_Z k) (1 # 2));
    [reflexivity | exfalso; lra].
Qed.

(** Rounding to four (three) decimals leaves a whole number of
    ten-thousandths (thousandths) as it is. *)
Lemma py_round_4_exato (x : Q) (k : Z) :
  x * 10000 == inject_Z k -> py_round x 4 == x.
Proof.
  intro H. unfold py_round. change (10 ^ 4) with 10000.
  rewrite (round_half_even_comp _ _ H), round_half_even_Z, <- H.
  unfold Qdiv. change (/ 10000) with (1 # 10000). lra.
Qed.

Lemma py_round_3_exato (x : Q) (k : Z) :
  x * 1000 == inject_Z k -> py_round x 3 == x.
Proof.
  intro H. unfold py_round. change (10 ^ 3) with 1000.
  rewrite (round_half_even_comp _ _ H), round_half_even_Z, <- H.
  unfold Qdiv. change (/ 1000) with (1 # 1000). lra.
Qed.

Lemma centesimos_inject (n : Z) : centesimos n * 100 == inject_Z n.
Proof. unfold centesimos, Qeq; simpl; lia. Qed.

Ltac inteiro k :=
  exists k; repeat (rewrite inject_Z_plus || rewrite inject_Z_mult);
  repeat match goal with
  | |- context [inject_Z (Zpos ?p)] => change (inject_Z (Zpos p)) with (Zpos p # 1)
  | |- context [inject_Z (Zneg ?p)] => change (inject_Z (Zneg p)) with (Zneg p # 1)
  end.

(** The tuple of a valid record is made of whole ten-thousandths. *)
Lemma main_resultado_decimal d :
  Valido d ->
  exists r,
    Main.calcular_risco_avancado d = Some r
    /\ (exists k, probabilidade_de r * 10000 == inject_Z k)
    /\ (exists k, score_de r * 10000 == inject_Z k)
    /\ (exists k, confianca_de r * 1000 == inject_Z k)
    /\ 0 <= probabilidade_de r <= 1
    /\ 0 <= score_de r <= 1
    /\ 0 <= confianca_de r <= 1.
Proof.
  intro V.
  destruct (main_resultado d V) as (r & n & E & Hn & Hs & Ha & Hm & Hb).
  destruct (main_resultado_n d V) as (r' & n' & E' & Hn' & H0 & Hc).
  rewrite E in E'. injection E' as <-. rewrite <- Hn in Hn'. subst n'.
  pose proof (centesimos_inject n) as Hi.
  assert (Hz : 0 <= centesimos n) by (unfold centesimos, Qle; simpl; lia).
  exists r. split; [exact E |].
  assert (Hk : exists k, score_de r * 10000 == inject_Z k).
  { clear Ha Hm Hb Hc.
    destruct (Q.min_spec (centesimos n) 1) as [[? Em] | [? Em]];
      [inteiro (100 * n)%Z | inteiro 10000%Z]; lra. }
  assert (Hr : 0 <= score_de r <= 1) by (clear Ha Hm Hb Hc; minmax; lra).
  destruct Hc as [(L & C & P) | [(L & C & P) | (L & C & P)]].
  - pose proof (centesimos_le n 44 ltac:(lia)) as H1.
    change (centesimos 44) with 0.44 in H1.
    destruct Hb as (_ & _ & Hcf); [clear Ha Hm; minmax; lra |].
    clear Ha Hm.
    split; [| split; [exact Hk | split; [inteiro 850%Z; lra |]]].
    + destruct (Q.max_spec 0.01 (centesimos n * 0.67)) as [[? Em] | [? Em]];
        [inteiro (67 * n)%Z | inteiro 100%Z]; lra.
    + split; [| split; [exact Hr | lra]].
      rewrite P. minmax; lra.
  - pose proof (centesimos_le 45 n ltac:(lia)) as H1.
    change (centesimos 45) with 0.45 in H1.
    pose proof (centesimos_le n 74 ltac:(lia)) as H2.
    change (centesimos 74) with 0.74 in H2.
    destruct Hm as (_ & _ & Hcf); [clear Ha Hb; minmax; lra |].
    clear Ha Hb.
    split; [| split; [exact Hk | split; [inteiro 880%Z; lra |]]].
    + inteiro (3000 + (n + -45) * 183)%Z. lra.
    + split; [| split; [exact Hr | lra]]. rewrite P. lra.
  - pose proof (centesimos_le 75 n ltac:(lia)) as H1.
    change (centesimos 75) with 0.75 in H1.
    destruct Ha as (_ & _ & Hcf); [clear Hm Hb; minmax; lra |].
    clear Hm Hb.
    split; [| split; [exact Hk | split; [inteiro 920%Z; lra |]]].
    + destruct (Q.min_spec (centesimos n) 1) as [[? Em] | [? Em]];
        destruct (Q.min_spec 0.99 (0.85 + (Qmin (centesimos n) 1 - 0.75) * 0.6))
          as [[? Ep] | [? Ep]];
        first [ inteiro 9900%Z; lra
              | inteiro (8500 + (n + -75) * 60)%Z; lra
              | inteiro 10000%Z; lra ].
    + split; [| split; [exact Hr | lra]].
      rewrite P. clear P Hs. minmax; lra.
Qed.



(** ** What [gerar_explicacoes_shap] of main.py always returns *)

Lemma inject_Z_pos (z : Z) : (0 < z)%Z -> 0 < inject_Z z.
Proof. intro H. change 0 with (inject_Z 0). now rewrite <- Zlt_Qlt. Qed.

(** X8: for a valid record the builder of main.py returns at most four risk
    factors, each with a positive [impacto] and category "increase_risk", at
    most two protective factors, each with a negative [impacto] and category
    "decrease_risk", and between one and five recommendations: the list of
    recommendations is never empty. *)
Theorem X8_explicacoes_shap_bem_formadas
    (repr_float fmt_1f : Q -> string) (d : PacienteInput)
    (resultado : Main.Resultado) :
  valido d = true ->
  exists e,
    Main.gerar_explicacoes_shap repr_float fmt_1f d resultado = Some e
    /\ Forall (fun x => 0 < impacto x /\ categoria x = "increase_risk")
         (fatores_risco e)
    /\ Forall (fun x => impacto x < 0 /\ categoria x = "decrease_risk")
         (fatores_protecao e)
    /\ (length (fatores_risco e) <= 4)%nat
    /\ (length (fatores_protecao e) <= 2)%nat
    /\ (1 <= length (recomendacoes e) <= 5)%nat.
Proof.
  intro V. apply valido_Valido in V.
  unfold Main.gerar_explicacoes_shap.
  destruct (main_bmi_valido d V) as [c ->].
  generalize (bmi_arredondado d) as b. intro b.
  eexists. split; [reflexivity |].
  cbn [fatores_risco fatores_protecao recomendacoes].
  split; [| split; [| split; [| split]]].
  - destruct (Z.gtb_spec (idade d) 50) as [Hi | Hi];
      destruct (Qgtb_spec (pressao_sistolica d) 140);
      destruct (Qgtb_spec b 30); destruct (dor_peito d);
      unfold append; cbn [app];
      repeat (constructor; cbn [impacto categoria]);
      try reflexivity;
      try (pose proof (inject_Z_pos (idade d - 50) ltac:(lia))); lra.
  - destruct (Z.ltb_spec (idade d) 40);
      destruct (Qgeb_spec b 18.5); destruct (Qleb_spec b 24.9);
      unfold append; cbn [app andb];
      repeat (constructor; cbn [impacto categoria]);
      try reflexivity; lra.
  - destruct (idade d >? 50)%Z, (pressao_sistolica d >? 140), (b >? 30),
      (dor_peito d); cbn; lia.
  - destruct (idade d <? 40)%Z, ((b >=? 18.5) && (b <=? 24.9))%bool; cbn; lia.
  - destruct (pressao_sistolica d >? 140), (b >? 30), (dor_peito d),
      (colesterol d >? 240), (glicose d >? 126); cbn [append app length]; lia.
Qed.

Lemma X8_testemunha :
  valido exemplo_sem_fatores = true
  /\ exists e,
      Main.gerar_explicacoes_shap texto_qualquer texto_qualquer
        exemplo_sem_fatores (Main.mkResultado "Baixo Risco" 0.01 0) = Some e
      /\ (1 <= length (recomendacoes e) <= 5)%nat.
Proof.
  split; [reflexivity |].
  destruct (X8_explicacoes_shap_bem_formadas texto_qualquer texto_qualquer
              exemplo_sem_fatores (Main.mkResultado "Baixo Risco" 0.01 0)
              eq_refl)
    as (e & E & _ & _ & _ & _ & H).
  exists e. split; [exact E | exact H].
Defined.

(** ** Signs and sizes of the lists of [gerar_explicacoes_detalhadas] *)

Lemma py_round_3_mono (x y : Q) : x <= y -> py_round x 3 <= py_round y 3.
Proof.
  intro H. unfold py_round. change (10 ^ 3) with 1000.
  assert (Hm : (round_half_even (x * 1000) <= round_half_even (y * 1000))%Z)
    by (apply round_half_even_mono; lra).
  rewrite Zle_Qle in Hm. unfold Qdiv.
  apply Qmult_le_compat_r; [exact Hm | discriminate].
Qed.

(** A bound that is a whole number of thousandths survives the rounding. *)
Lemma py_round_3_ge (k : Z) (x : Q) :
  inject_Z k / 1000 <= x -> inject_Z k / 1000 <= py_round x 3.
Proof.
  intro H. apply py_round_3_mono in H.
  rewrite (py_round_3_exato (inject_Z k / 1000) k) in H; [exact H |].
  unfold Qdiv. change (/ 1000) with (1 # 1000). lra.
Qed.

Lemma py_round_3_pos (k : Z) (x : Q) :
  (0 < k)%Z -> inject_Z k / 1000 <= x -> 0 < py_round x 3.
Proof.
  intros Hk H. apply py_round_3_ge in H.
  apply inject_Z_pos in Hk. unfold Qdiv in H.
  change (/ 1000) with (1 # 1000) in H. lra.
Qed.

Lemma inject_Z_nonneg (z : Z) : (0 <= z)%Z -> 0 <= inject_Z z.
Proof. intro H. change 0 with (inject_Z 0). now rewrite <- Zle_Qle. Qed.

Lemma corrigida_fatores_sinais repr_float d cat sc :
  Valido d ->
  exists emitidos protecao,
    Corrigida.gerar_explicacoes_detalhadas repr_float d cat sc
    = Some (firstn 5 (sort_reverse impacto emitidos),
            firstn 3 (sort_reverse (fun x => Qabs (impacto x)) protecao))
    /\ Forall positivo emitidos
    /\ Forall negativo protecao
    /\ (length emitidos <= 8)%nat
    /\ (length protecao <= 3)%nat.
Proof.
  intro V. pose proof (v_sistolica d V) as Vs.
  unfold Corrigida.gerar_explicacoes_detalhadas.
  destruct (corrigida_bmi_valido d V) as [c ->].
  generalize (bmi_arredondado d) as b. intro b.
  generalize (Corrigida.classificar_pressao (pressao_sistolica d)
                (pressao_diastolica d)) as cp. intro cp.
  cbv beta iota zeta.
  (* 1. IDADE *)
  match goal with |- context [match ?p with pair _ _ => _ end] =>
    assert (H1 : exists l q, p = (l, q)
              /\ Forall positivo l /\ Forall negativo q
              /\ (length l <= 1)%nat /\ (length q <= 1)%nat)
  end.
  { destruct (Z.geb_spec (idade d) 65); [| destruct (Z.geb_spec (idade d) 45)];
      eexists; eexists; (split; [reflexivity |]);
      unfold append; cbn [app length];
      (split; [| split; [| split; lia]]);
      repeat constructor; unfold positivo, negativo; cbn [impacto];
      try lra.
    - apply (py_round_3_pos 250); [lia |].
      pose proof (inject_Z_nonneg (idade d - 65) ltac:(lia)) as Hp.
      change (inject_Z 250 / 1000) with (250 # 1000). lra.
    - apply (py_round_3_pos 100); [lia |].
      pose proof (inject_Z_nonneg (idade d - 45) ltac:(lia)) as Hp.
      change (inject_Z 100 / 1000) with (100 # 1000). lra. }
  destruct H1 as (l1 & q1 & -> & P1 & N1 & Ll1 & Lq1). cbv beta iota.
  (* 2. PRESSAO ARTERIAL *)
  match goal with |- context [match ?p with pair _ _ => _ end] =>
    assert (H2 : exists l q, p = (l, q)
              /\ Forall positivo l /\ Forall negativo q
              /\ (length l <= 2)%nat /\ (length q <= 2)%nat)
  end.
  { destruct (pertence cp ["Hipertensão Estágio 2"; "Crise Hipertensiva"]);
      [| destruct (cp =? "Hipertensão Estágio 1")%string;
         [| destruct (cp =? "Normal")%string]];
      eexists; eexists; (split; [reflexivity |]);
      unfold append; rewrite ?length_app; cbn [length];
      (split; [| split; [| split; lia]]);
      rewrite ?Forall_app; repeat split; try assumption;
      repeat constructor; unfold positivo, negativo; cbn [impacto];
      try lra.
    apply (py_round_3_pos 90); [lia |].
    change (inject_Z 90 / 1000) with (90 # 1000). lra. }
  destruct H2 as (l2 & q2 & -> & P2 & N2 & Ll2 & Lq2). cbv beta iota.
  (* 3. BMI E OBESIDADE *)
  match goal with |- context [match ?p with pair _ _ => _ end] =>
    assert (H3 : exists l q, p = (l, q)
              /\ Forall positivo l /\ Forall negativo q
              /\ (length l <= 3)%nat /\ (length q <= 3)%nat)
  end.
  { destruct (Qgeb_spec b 30);
      [| destruct (Qgeb_spec b 25); [| destruct (Qgeb_spec b 18.5)]];
      eexists; eexists; (split; [reflexivity |]);
      unfold append; rewrite ?length_app; cbn [length];
      (split; [| split; [| split; lia]]);
      rewrite ?Forall_app; repeat split; try assumption;
      repeat constructor; unfold positivo, negativo; cbn [impacto];
      try lra.
    apply (py_round_3_pos 150); [lia |].
    change (inject_Z 150 / 1000) with (150 # 1000). lra. }
  destruct H3 as (l3 & q3 & -> & P3 & N3 & Ll3 & Lq3). cbv beta iota.
  (* 4-6. COLESTEROL, GLICOSE, SINTOMAS *)
  (destruct (Qgeb_spec (colesterol d) 240);
   [| destruct (Qgeb_spec (colesterol d) 200)]);
  (destruct (Qgeb_spec (glicose d) 126);
   [| destruct (Qgeb_spec (glicose d) 100)]);
  destruct (dor_peito d), (falta_ar d), (fadiga d);
  (eexists; eexists; (split; [reflexivity |]);
   unfold append; rewrite ?length_app; cbn [length];
   (split; [| split; [exact N3 | split; lia]]);
   rewrite ?Forall_app; repeat split; try assumption;
   repeat constructor; unfold positivo; cbn [impacto]; try lra;
   first [ apply (py_round_3_pos 200); [lia |];
           change (inject_Z 200 / 1000) with (200 # 1000); lra ]).
Qed.

(** X9: for a valid record, [gerar_explicacoes_detalhadas] of
    api_medica_corrigida.py returns at most five risk factors, all with a
    positive [impacto], and at most three protective factors, all with a
    negative [impacto] and ordered by descending absolute value. *)
Theorem X9_listas_detalhadas_bem_formadas
    (repr_float : Q -> string) (d : PacienteInput) (cat : string) (sc : Q) :
  valido d = true ->
  exists fr fp,
    Corrigida.gerar_explicacoes_detalhadas repr_float d cat sc = Some (fr, fp)
    /\ Forall positivo fr
    /\ Forall negativo fp
    /\ (length fr <= 5)%nat
    /\ (length fp <= 3)%nat
    /\ decrescente fr
    /\ StronglySorted
         (fun a b => Qabs (impacto b) <= Qabs (impacto a)) fp.
Proof.
  intro V. apply valido_Valido in V.
  destruct (corrigida_fatores_sinais repr_float d cat sc V)
    as (em & pr & E & Pe & Np & _ & _).
  destruct (top_sort_reverse impacto 5 em) as (Hs & Hl & Hin & _).
  destruct (top_sort_reverse (fun x => Qabs (impacto x)) 3 pr)
    as (Hs' & Hl' & Hin' & _).
  eexists. eexists. split; [exact E |].
  split; [| split; [| split; [exact Hl | split; [exact Hl' | split]]]].
  - rewrite Forall_forall in *. intros x Hx. exact (Pe x (Hin x Hx)).
  - rewrite Forall_forall in *. intros x Hx. exact (Np x (Hin' x Hx)).
  - exact Hs.
  - exact Hs'.
Qed.

Lemma X9_testemunha :
  valido exemplo_baixo_risco = true
  /\ exists fr fp,
      Corrigida.gerar_explicacoes_detalhadas texto_qualquer exemplo_baixo_risco
        "Baixo Risco" 0.10 = Some (fr, fp)
      /\ Forall positivo fr
      /\ Forall negativo fp.
Proof.
  split; [reflexivity |].
  destruct (X9_listas_detalhadas_bem_formadas texto_qualquer
              exemplo_baixo_risco "Baixo Risco" 0.10 eq_refl)
    as (fr & fp & E & P & N & _).
  exists fr, fp. split; [exact E |]. split; [exact P | exact N].
Defined.

(** ** The explanation builder of api_medica_windows.py *)

Lemma windows_fatores_emitidos repr_float d cat sc :
  Valido d ->
  exists emitidos protecao,
    Windows.gerar_explicacoes_detalhadas repr_float d cat sc
    = Some (firstn 5 (sort_reverse impacto emitidos),
            firstn 3 (sort_reverse (fun x => Qabs (impacto x)) protecao))
    /\ map fator emitidos = limiares_cruzados_windows d (bmi_arredondado d)
    /\ (length emitidos <= 5)%nat.
Proof.
  intro V.
  unfold Windows.gerar_explicacoes_detalhadas, limiares_cruzados_windows.
  change Windows.calcular_bmi with Main.calcular_bmi.
  destruct (main_bmi_valido d V) as [c ->].
  generalize (bmi_arredondado d) as b. intro b.
  generalize (Windows.classificar_pressao (pressao_sistolica d)
                (pressao_diastolica d)) as cp. intro cp.
  cbv beta iota zeta.
  (* idade *)
  match goal with |- context [match ?p with pair _ _ => _ end] =>
    assert (H1 : exists l q, p = (l, q)
              /\ map fator l
                 = (if (idade d >=? 65)%Z then ["Idade Avancada"]
                    else if (idade d >=? 45)%Z then ["Idade Intermediaria"]
                    else [])
              /\ (length l <= 1)%nat)
      by (destruct (idade d >=? 65)%Z; [| destruct (idade d >=? 45)%Z];
          eexists; eexists; (split; [reflexivity |]);
          (split; [reflexivity | cbn; lia]))
  end.
  destruct H1 as (l1 & q1 & -> & Hn1 & Hl1). cbv beta iota.
  (* pressao arterial *)
  match goal with |- context [match ?p with pair _ _ => _ end] =>
    assert (H2 : exists l q, p = (l, q)
              /\ map fator l
                 = (map fator l1
                    ++ (if pertence cp ["Hipertensao Estagio 2"; "Crise Hipertensiva"]
                        then ["Hipertensao Severa"]
                        else if (cp =? "Hipertensao Estagio 1")%string
                        then ["Hipertensao Leve"] else []))%list
              /\ (length l <= 2)%nat)
      by (destruct (pertence cp ["Hipertensao Estagio 2"; "Crise Hipertensiva"]);
          [| destruct (cp =? "Hipertensao Estagio 1")%string;
             [| destruct (cp =? "Normal")%string]];
          eexists; eexists; (split; [reflexivity |]);
          unfold append; rewrite ?map_app, ?app_nil_r, ?length_app;
          (split; [reflexivity | cbn [length]; lia]))
  end.
  destruct H2 as (l2 & q2 & -> & Hn2 & Hl2). cbv beta iota.
  (* BMI *)
  match goal with |- context [match ?p with pair _ _ => _ end] =>
    assert (H3 : exists l q, p = (l, q)
              /\ map fator l
                 = (map fator l2
                    ++ (if b >=? 30 then ["Obesidade"]
                        else if b >=? 25 then ["Sobrepeso"] else []))%list
              /\ (length l <= 3)%nat)
      by (destruct (b >=? 30);
          [| destruct (b >=? 25); [| destruct (b >=? 18.5)]];
          eexists; eexists; (split; [reflexivity |]);
          unfold append; rewrite ?map_app, ?app_nil_r, ?length_app;
          (split; [reflexivity | cbn [length]; lia]))
  end.
  destruct H3 as (l3 & q3 & -> & Hn3 & Hl3). cbv beta iota.
  (* sintomas *)
  rewrite !app_assoc, <- Hn1, <- Hn2, <- Hn3, <- !app_assoc.
  destruct (dor_peito d), (falta_ar d);
  (eexists; eexists; (split; [reflexivity |]);
   unfold append; rewrite ?map_app, <- ?app_assoc, ?length_app;
   cbn [map app fator length]; rewrite ?app_nil_r;
   (split; [reflexivity | lia])).
Qed.

(** X10: the builder of api_medica_windows.py tests five factors, so its cut
    at five never removes anything: for a valid record the risk factors
    returned are all the tuples emitted, one for each test that holds, sorted
    by descending [impacto]. *)
Theorem X10_windows_devolve_todos_os_fatores
    (repr_float : Q -> string) (d : PacienteInput) (cat : string) (sc : Q) :
  valido d = true ->
  exists fr fp emitidos,
    Windows.gerar_explicacoes_detalhadas repr_float d cat sc = Some (fr, fp)
    /\ map fator emitidos = limiares_cruzados_windows d (bmi_arredondado d)
    /\ fr = sort_reverse impacto emitidos
    /\ Permutation emitidos fr
    /\ decrescente fr.
Proof.
  intro V. apply valido_Valido in V.
  destruct (windows_fatores_emitidos repr_float d cat sc V)
    as (em & pr & E & Hn & Hl).
  assert (F : firstn 5 (sort_reverse impacto em) = sort_reverse impacto em).
  { apply firstn_all2.
    rewrite <- (Permutation_length (sort_reverse_perm impacto em)). exact Hl. }
  rewrite F in E.
  eexists. eexists. exists em.
  split; [exact E |]. split; [exact Hn |]. split; [reflexivity |].
  split; [apply sort_reverse_perm | apply sort_reverse_sorted].
Qed.

Lemma X10_testemunha :
  valido exemplo_alto_risco = true
  /\ exists fr fp,
      Windows.gerar_explicacoes_detalhadas texto_qualquer exemplo_alto_risco
        "Alto Risco" 1 = Some (fr, fp)
      /\ decrescente fr.
Proof.
  split; [reflexivity |].
  destruct (X10_windows_devolve_todos_os_fatores texto_qualquer
              exemplo_alto_risco "Alto Risco" 1 eq_refl)
    as (fr & fp & em & E & _ & _ & _ & S).
  exists fr, fp. split; [exact E | exact S].
Defined.

(** ** The recommendation builders *)

(** Name the value of the outermost [let] of the goal. *)
Ltac abrir nome :=
  match goal with
  | |- context C [let x := ?v in @?K x] =>
      pose (nome := v);
      let t := eval cbv beta in (K nome) in
      let G := context C [t] in
      change G
  end.

(** Split on every test of the goal. *)
Ltac testes :=
  repeat match goal with
  | |- context [if ?c then _ else _] => destruct c
  end.

Lemma firstn_app_cheio {A : Type} (n : nat) (l s : list A) :
  (n <= length l)%nat -> firstn n (l ++ s) = firstn n l.
Proof.
  intro H. rewrite firstn_app.
  replace (n - length l)%nat with 0%nat by lia.
  cbn [firstn]. apply app_nil_r.
Qed.

Lemma In_firstn_S {A : Type} (n : nat) (l : list A) (x : A) :
  In x (firstn n l) -> In x (firstn (S n) l).
Proof.
  revert l. induction n as [| n IH]; intros [| a l] H; cbn in *;
    try contradiction.
  destruct H as [H | H]; [now left | right; now apply IH].
Qed.

Lemma hd_error_app_some {A : Type} (l s : list A) (x : A) :
  hd_error l = Some x -> hd_error (l ++ s) = Some x.
Proof. destruct l; [discriminate | intro H; exact H]. Qed.

Lemma hd_error_firstn_S {A : Type} (n : nat) (l : list A) :
  hd_error (firstn (S n) l) = hd_error l.
Proof. destruct l; reflexivity. Qed.

(** The size of the answer of api_medica_corrigida.py. *)
Lemma corrigida_recomendacoes_tamanho cat d b cp :
  (5 <= length (Corrigida.gerar_recomendacoes_personalizadas cat d b cp) <= 8)%nat.
Proof.
  remember (Corrigida.gerar_recomendacoes_personalizadas cat d b cp) as r eqn:E.
  revert E. cbv beta delta [Corrigida.gerar_recomendacoes_personalizadas].
  abrir l0. abrir l1.
  assert (H1 : (5 <= length l1)%nat) by (subst l1 l0; testes; cbn; lia).
  clearbody l1. clear l0.
  abrir l2.
  assert (H2 : (5 <= length l2)%nat)
    by (subst l2; testes; unfold extend, append, insert_0;
        rewrite ?length_app; cbn [length]; lia).
  clearbody l2. clear H1 l1.
  abrir l3.
  assert (H3 : (5 <= length l3)%nat)
    by (subst l3; testes; unfold extend, append, insert_0;
        rewrite ?length_app; cbn [length]; lia).
  clearbody l3. clear H2 l2.
  abrir l4.
  assert (H4 : (5 <= length l4)%nat)
    by (subst l4; testes; unfold extend, append, insert_0;
        rewrite ?length_app; cbn [length]; lia).
  clearbody l4. clear H3 l3.
  abrir l5.
  assert (H5 : (5 <= length l5)%nat)
    by (subst l5; testes; unfold extend, append, insert_0;
        rewrite ?length_app; cbn [length]; lia).
  clearbody l5. clear H4 l4.
  abrir l6.
  assert (H6 : (5 <= length l6)%nat)
    by (subst l6; testes; unfold extend, append, insert_0;
        rewrite ?length_app; cbn [length]; lia).
  clearbody l6. clear H5 l5.
  abrir l7.
  assert (H7 : (5 <= length l7)%nat)
    by (subst l7; testes; unfold extend, append, insert_0;
        rewrite ?length_app; cbn [length]; lia).
  clearbody l7. clear H6 l6.
  abrir l8.
  assert (H8 : (5 <= length l8)%nat)
    by (subst l8; testes; unfold extend, append, insert_0;
        rewrite ?length_app; cbn [length]; lia).
  clearbody l8. clear H7 l7.
  abrir l9.
  assert (H9 : (5 <= length l9)%nat)
    by (subst l9; testes; unfold extend, append, insert_0;
        rewrite ?length_app; cbn [length]; lia).
  clearbody l9. clear H8 l8.
  intros ->. rewrite length_firstn.
  destruct (Nat.min_spec 8 (length l9)) as [[? E] | [? E]]; rewrite E; lia.
Qed.


(** A step of the answer: name the next [let], prove what is kept about it. *)
Ltac etapa novo P tac :=
  abrir novo;
  let I := fresh "I" in
  let T := eval cbv beta in (P novo) in
  assert (I : T) by (subst novo; tac);
  clearbody novo.

Ltac so_acrescenta :=
  testes; unfold extend, append, insert_0;
  first [assumption | now apply hd_error_app_some | reflexivity].

Lemma corrigida_recomendacoes_dor cat d b cp :
  dor_peito d = true ->
  hd_error (Corrigida.gerar_recomendacoes_personalizadas cat d b cp)
  = Some "💔 INVESTIGAR dor torácica: ECG, troponina, considerar cateterismo".
Proof.
  intro Hd.
  cbv beta delta [Corrigida.gerar_recomendacoes_personalizadas].
  abrir l0. abrir l1. abrir l2. abrir l3. abrir l4. abrir l5. abrir l6.
  clearbody l6. clear l0 l1 l2 l3 l4 l5.
  etapa l7
    (fun l => hd_error l
              = Some "💔 INVESTIGAR dor torácica: ECG, troponina, considerar cateterismo")
    ltac:(rewrite Hd; reflexivity).
  etapa l8
    (fun l => hd_error l
              = Some "💔 INVESTIGAR dor torácica: ECG, troponina, considerar cateterismo")
    so_acrescenta.
  etapa l9
    (fun l => hd_error l
              = Some "💔 INVESTIGAR dor torácica: ECG, troponina, considerar cateterismo")
    so_acrescenta.
  rewrite hd_error_firstn_S. assumption.
Qed.

Lemma corrigida_recomendacoes_crise cat d b :
  dor_peito d = false ->
  hd_error (Corrigida.gerar_recomendacoes_personalizadas cat d b
              "Crise Hipertensiva")
  = Some "🚨 EMERGÊNCIA: Atendimento imediato - risco de AVC/IAM".
Proof.
  intro Hd.
  cbv beta delta [Corrigida.gerar_recomendacoes_personalizadas].
  abrir l0. abrir l1. abrir l2. clearbody l2. clear l0 l1.
  etapa l3
    (fun l => hd_error l
              = Some "🚨 EMERGÊNCIA: Atendimento imediato - risco de AVC/IAM")
    ltac:(reflexivity).
  etapa l4
    (fun l => hd_error l
              = Some "🚨 EMERGÊNCIA: Atendimento imediato - risco de AVC/IAM")
    so_acrescenta.
  etapa l5
    (fun l => hd_error l
              = Some "🚨 EMERGÊNCIA: Atendimento imediato - risco de AVC/IAM")
    so_acrescenta.
  etapa l6
    (fun l => hd_error l
              = Some "🚨 EMERGÊNCIA: Atendimento imediato - risco de AVC/IAM")
    so_acrescenta.
  etapa l7
    (fun l => hd_error l
              = Some "🚨 EMERGÊNCIA: Atendimento imediato - risco de AVC/IAM")
    ltac:(rewrite Hd; assumption).
  etapa l8
    (fun l => hd_error l
              = Some "🚨 EMERGÊNCIA: Atendimento imediato - risco de AVC/IAM")
    so_acrescenta.
  etapa l9
    (fun l => hd_error l
              = Some "🚨 EMERGÊNCIA: Atendimento imediato - risco de AVC/IAM")
    so_acrescenta.
  rewrite hd_error_firstn_S. assumption.
Qed.

(** X11: in api_medica_windows.py the final slice [recomendacoes[:8]] never
    drops anything: the answer has the four entries of the category and one
    more for each of the four tests that holds, so at most eight; each of the
    four conditional entries is in the answer exactly when its test holds, and
    the chest-pain entry, when present, is the first one. *)
Theorem X11_windows_recomendacoes_completas
    (cat : string) (d : PacienteInput) (b : Q) (cp : string) :
  let r := Windows.gerar_recomendacoes_personalizadas cat d b cp in
  length r
  = (4 + Nat.b2n (pertence cp ["Hipertensao Estagio 1"; "Hipertensao Estagio 2"])
     + Nat.b2n (b >=? 30) + Nat.b2n (colesterol d >=? 240)
     + Nat.b2n (dor_peito d))%nat
  /\ (In "Monitoramento PA domiciliar" r
      <-> pertence cp ["Hipertensao Estagio 1"; "Hipertensao Estagio 2"] = true)
  /\ (In "Meta: perda 5-10% peso em 6 meses" r <-> (b >=? 30) = true)
  /\ (In "Estatina alta intensidade + ezetimiba" r
      <-> (colesterol d >=? 240) = true)
  /\ (In "INVESTIGAR dor toracica: ECG, troponina" r <-> dor_peito d = true)
  /\ (dor_peito d = true
      -> hd_error r = Some "INVESTIGAR dor toracica: ECG, troponina").
Proof.
  intro r. subst r.
  cbv beta delta [Windows.gerar_recomendacoes_personalizadas].
  (destruct (cat =? "Alto Risco")%string;
     [| destruct (cat =? "Medio Risco")%string]);
    destruct (pertence cp ["Hipertensao Estagio 1"; "Hipertensao Estagio 2"]);
    destruct (b >=? 30); destruct (colesterol d >=? 240);
    destruct (dor_peito d);
    cbv beta iota zeta
      delta [extend append insert_0 app firstn length hd_error Nat.b2n
             Nat.add];
    (split; [reflexivity |]);
    repeat split; intros; try reflexivity; try discriminate;
    cbn [In] in *; intuition discriminate.
Qed.

(** X12: the answer of [gerar_recomendacoes_personalizadas] of
    api_medica_corrigida.py always has between five and eight entries; with
    chest pain its first entry is the chest-pain investigation, also in a
    hypertensive crisis; without chest pain the first entry in a hypertensive
    crisis is the emergency notice. *)
Theorem X12_recomendacoes_tamanho_e_primeira
    (cat : string) (d : PacienteInput) (b : Q) (cp : string) :
  (5 <= length (Corrigida.gerar_recomendacoes_personalizadas cat d b cp) <= 8)%nat
  /\ (dor_peito d = true ->
      hd_error (Corrigida.gerar_recomendacoes_personalizadas cat d b cp)
      = Some "💔 INVESTIGAR dor torácica: ECG, troponina, considerar cateterismo")
  /\ (dor_peito d = false ->
      cp = "Crise Hipertensiva" ->
      hd_error (Corrigida.gerar_recomendacoes_personalizadas cat d b cp)
      = Some "🚨 EMERGÊNCIA: Atendimento imediato - risco de AVC/IAM").
Proof.
  split; [apply corrigida_recomendacoes_tamanho |].
  split; [apply corrigida_recomendacoes_dor |].
  intros Hd ->. now apply corrigida_recomendacoes_crise.
Qed.

Lemma firstn_app_firstn {A : Type} (n : nat) (p l : list A) :
  firstn n (p ++ firstn n l) = firstn n (p ++ l).
Proof.
  rewrite !firstn_app, firstn_firstn.
  replace (Nat.min (n - length p) n) with (n - length p)%nat by lia.
  reflexivity.
Qed.

Ltac mais_um :=
  match goal with
  | I : ex _ |- _ => destruct I as [? ->]
  end;
  testes; unfold extend, append, insert_0; eexists;
  rewrite <- ?app_assoc; cbn [app]; reflexivity.

(** X13: with a stage 1 or stage 2 pressure label the five entries of the
    category and the three on hypertension already fill the eight places:
    the answer is the one of a patient with no finding at all (same category
    and label), with the chest-pain investigation put in front when that flag
    is set.  No advice on weight, cholesterol, glucose, dyspnoea or the
    number of medicines is ever returned to such a patient. *)
Theorem X13_hipertensos_sem_as_demais_recomendacoes
    (cat : string) (d : PacienteInput) (b : Q) (cp : string) :
  pertence cp ["Hipertensão Estágio 1"; "Hipertensão Estágio 2"] = true ->
  Corrigida.gerar_recomendacoes_personalizadas cat d b cp
  = firstn 8
      ((if dor_peito d
        then ["💔 INVESTIGAR dor torácica: ECG, troponina, considerar cateterismo"]
        else [])
       ++ Corrigida.gerar_recomendacoes_personalizadas cat exemplo_sem_fatores 0 cp).
Proof.
  intro Hh.
  remember (Corrigida.gerar_recomendacoes_personalizadas cat exemplo_sem_fatores
              0 cp) as r0 eqn:E0.
  remember (Corrigida.gerar_recomendacoes_personalizadas cat d b cp) as r eqn:E.
  revert E. cbv beta delta [Corrigida.gerar_recomendacoes_personalizadas].
  abrir l0. abrir l1. abrir l2.
  set (h3 := ["🩺 Monitoramento PA domiciliar (MAPA se possível)";
              "🧂 Redução sódio <2g/dia, aumentar potássio";
              "💊 Otimizar anti-hipertensivos (IECA/BRA + diurético)"]) in *.
  set (pc := if (cp =? "Crise Hipertensiva")%string
             then ["🚨 EMERGÊNCIA: Atendimento imediato - risco de AVC/IAM"]
             else []).
  assert (L1 : length l1 = 5%nat)
    by (subst l1 l0; destruct (cat =? "Alto Risco")%string;
        [| destruct (cat =? "Médio Risco")%string]; reflexivity).
  assert (I2 : l2 = (l1 ++ h3)%list) by (subst l2; rewrite Hh; reflexivity).
  assert (R0 : r0 = firstn 8 (pc ++ l1 ++ h3)%list).
  { rewrite E0. subst l1 l0 pc h3.
    cbv beta delta [Corrigida.gerar_recomendacoes_personalizadas].
    rewrite Hh.
    destruct (cat =? "Alto Risco")%string;
      [| destruct (cat =? "Médio Risco")%string];
      destruct (cp =? "Crise Hipertensiva")%string; reflexivity. }
  clearbody l2. clear E0.
  etapa l3 (fun l => exists s, l = (pc ++ (l1 ++ h3) ++ s)%list)
    ltac:(rewrite I2; subst pc; testes; unfold insert_0; exists [];
          rewrite ?app_nil_r; reflexivity).
  etapa l4 (fun l => exists s, l = (pc ++ (l1 ++ h3) ++ s)%list) mais_um.
  etapa l5 (fun l => exists s, l = (pc ++ (l1 ++ h3) ++ s)%list) mais_um.
  etapa l6 (fun l => exists s, l = (pc ++ (l1 ++ h3) ++ s)%list) mais_um.
  etapa l7
    (fun l => exists s,
       l = ((if dor_peito d
             then ["💔 INVESTIGAR dor torácica: ECG, troponina, considerar cateterismo"]
             else []) ++ pc ++ (l1 ++ h3) ++ s)%list) mais_um.
  etapa l8
    (fun l => exists s,
       l = ((if dor_peito d
             then ["💔 INVESTIGAR dor torácica: ECG, troponina, considerar cateterismo"]
             else []) ++ pc ++ (l1 ++ h3) ++ s)%list) mais_um.
  etapa l9
    (fun l => exists s,
       l = ((if dor_peito d
             then ["💔 INVESTIGAR dor torácica: ECG, troponina, considerar cateterismo"]
             else []) ++ pc ++ (l1 ++ h3) ++ s)%list) mais_um.
  intros ->. rewrite R0, firstn_app_firstn.
  match goal with I : ex _ |- _ => destruct I as [s ->] end.
  rewrite !app_assoc. apply firstn_app_cheio.
  rewrite !length_app, L1. subst h3. cbn [length]. lia.
Qed.

Lemma X13_testemunha :
  Corrigida.gerar_recomendacoes_personalizadas "Médio Risco"
    exemplo_todos_os_fatores 44.98 "Hipertensão Estágio 2"
  = firstn 8
      (["💔 INVESTIGAR dor torácica: ECG, troponina, considerar cateterismo"]
       ++ Corrigida.gerar_recomendacoes_personalizadas "Médio Risco"
            exemplo_sem_fatores 0 "Hipertensão Estágio 2").
Proof.
  exact (X13_hipertensos_sem_as_demais_recomendacoes "Médio Risco"
           exemplo_todos_os_fatores 44.98 "Hipertensão Estágio 2" eq_refl).
Defined.

(** ** The dashboard *)


Lemma dash_score_limites dados :
  0 <= inject_Z (Dashboard.dor_peito dados) <= 1 ->
  0 <= inject_Z (Dashboard.falta_ar dados) <= 1 ->
  0 <= inject_Z (Dashboard.fadiga dados) <= 1 ->
  0 <= inject_Z (Dashboard.tontura dados) <= 1 ->
  0 <= Dashboard.score (Dashboard.calcular_risco_simulado dados) <= 1.48.
Proof.
  intros Hd Hf Hg Ht.
  remember (Dashboard.calcular_risco_simulado dados) as r eqn:E. revert E.
  cbv beta delta [Dashboard.calcular_risco_simulado].
  etapa s0 (fun s => 0 <= s <= 0) ltac:(lra).
  etapa s1 (fun s => 0 <= s <= 0.3) ltac:(testes; lra).
  etapa s2 (fun s => 0 <= s <= 0.55) ltac:(testes; lra).
  etapa s3 (fun s => 0 <= s <= 0.75) ltac:(testes; lra).
  etapa s4 (fun s => 0 <= s <= 0.95) ltac:(testes; lra).
  etapa s5 (fun s => 0 <= s <= 1.1) ltac:(testes; lra).
  etapa s6 (fun s => 0 <= s <= 1.25) ltac:(lra).
  etapa s7 (fun s => 0 <= s <= 1.35) ltac:(lra).
  etapa s8 (fun s => 0 <= s <= 1.43) ltac:(lra).
  etapa s9 (fun s => 0 <= s <= 1.48) ltac:(lra).
  testes; intros ->; cbn [Dashboard.score]; assumption.
Qed.

Lemma b2z_01 (b : bool) : 0 <= inject_Z (Z.b2z b) <= 1.
Proof. destruct b; split; vm_compute; discriminate. Qed.

(** X15: with a weight and a height inside the ranges of the side bar's
    widgets (30 to 200 kg, 1.0 to 2.5 m) the dict is always built, its BMI is
    the weight over the squared height and lies between 4.8 and 200, and the
    score that [calcular_risco_simulado] gives it lies between 0 and 1.48,
    the sum of the largest increments. *)
Theorem X15_barra_lateral_nos_limites
    (idade : Z) (genero tipo_sanguineo : string)
    (pressao_sistolica pressao_diastolica freq_cardiaca : Z)
    (peso altura : Q)
    (colesterol glicose num_medicamentos visitas_anuais : Z)
    (dor_peito falta_ar fadiga tontura : bool) :
  30 <= peso <= 200 ->
  1 <= altura <= 2.5 ->
  exists dados,
    Dashboard.paciente_data idade genero tipo_sanguineo pressao_sistolica
      pressao_diastolica freq_cardiaca peso altura colesterol glicose
      num_medicamentos visitas_anuais dor_peito falta_ar fadiga tontura
    = Some dados
    /\ Dashboard.bmi dados == peso / altura ^ 2
    /\ 4.8 <= Dashboard.bmi dados <= 200
    /\ 0 <= Dashboard.score (Dashboard.calcular_risco_simulado dados) <= 1.48.
Proof.
  intros Hp Ha.
  assert (Hq : 1 <= altura * altura <= 6.25) by nra.
  unfold Dashboard.paciente_data.
  destruct (Qeq_bool (altura ^ 2) 0) eqn:E.
  - apply Qeq_bool_iff in E. exfalso.
    assert (altura ^ 2 == altura * altura) by (simpl; ring). lra.
  - eexists. split; [reflexivity |].
    cbn [Dashboard.bmi].
    assert (Hb : peso / altura ^ 2 == peso / (altura * altura))
      by (apply Qdiv_comp; [reflexivity | simpl; ring]).
    split; [reflexivity |].
    split.
    + rewrite Hb.
      assert (Hi : 0 < / (altura * altura)) by (apply Qinv_lt_0_compat; lra).
      assert (Hm : (altura * altura) * / (altura * altura) == 1)
        by (apply Qmult_inv_r; lra).
      unfold Qdiv. nra.
    + apply dash_score_limites; cbn [Dashboard.dor_peito Dashboard.falta_ar
        Dashboard.fadiga Dashboard.tontura]; apply b2z_01.
Qed.

Lemma X15_testemunha :
  exists dados,
    Dashboard.paciente_data 50 "Masculino" "A+" 120 80 70 70 1.7 200 100 0 1
      false false false false
    = Some dados
    /\ 4.8 <= Dashboard.bmi dados <= 200.
Proof.
  destruct (X15_barra_lateral_nos_limites 50 "Masculino" "A+" 120 80 70 70 1.7
              200 100 0 1 false false false false)
    as (dados & E & _ & H & _).
  - split; vm_compute; discriminate.
  - split; vm_compute; discriminate.
  - exists dados. split; [exact E | exact H].
Defined.

(** X16: [gerar_explicacoes_shap_simuladas] returns its entries by descending
    [impacto]; every entry has a positive [impacto]; and nothing is dropped:
    there is one entry for each of the five tests that holds. *)
Theorem X16_explicacoes_simuladas_ordenadas
    (fmt_2f : Q -> string) (dados : Dashboard.DadosPaciente)
    (resultado : Dashboard.ResultadoSimulado) :
  let r := Dashboard.gerar_explicacoes_shap_simuladas fmt_2f dados resultado in
  StronglySorted (fun a b => Dashboard.impacto b <= Dashboard.impacto a) r
  /\ Forall (fun x => 0 < Dashboard.impacto x) r
  /\ length r
     = (Nat.b2n (Dashboard.idade dados >? 50)%Z
        + Nat.b2n (Dashboard.pressao_sistolica dados >? 120)%Z
        + Nat.b2n (Dashboard.bmi dados >? 25)
        + Nat.b2n (Dashboard.colesterol dados >? 200)%Z
        + Nat.b2n (negb (Dashboard.dor_peito dados =? 0)%Z))%nat.
Proof.
  intro r. subst r.
  unfold Dashboard.gerar_explicacoes_shap_simuladas. cbv zeta.
  split; [apply sort_reverse_sorted |].
  match goal with
  | |- context [sort_reverse _ ?l] =>
      pose proof (sort_reverse_perm Dashboard.impacto l) as Hp;
      generalize dependent (sort_reverse Dashboard.impacto l)
  end.
  intros r Hp. split.
  - apply (Permutation_Forall Hp). clear Hp r.
    destruct (Z.gtb_spec (Dashboard.idade dados) 50);
      destruct (Z.gtb_spec (Dashboard.pressao_sistolica dados) 120);
      destruct (Qgtb_spec (Dashboard.bmi dados) 25);
      destruct (Z.gtb_spec (Dashboard.colesterol dados) 200);
      destruct (negb (Dashboard.dor_peito dados =? 0)%Z);
      unfold append; cbn [app];
      repeat (constructor; cbn [Dashboard.impacto]);
      try (pose proof (inject_Z_pos (Dashboard.idade dados - 50) ltac:(lia)));
      try (pose proof (inject_Z_pos (Dashboard.pressao_sistolica dados - 120)
                         ltac:(lia)));
      try (pose proof (inject_Z_pos (Dashboard.colesterol dados - 200)
                         ltac:(lia)));
      lra.
  - rewrite <- (Permutation_length Hp). clear Hp r.
    destruct (Dashboard.idade dados >? 50)%Z,
      (Dashboard.pressao_sistolica dados >? 120)%Z,
      (Dashboard.bmi dados >? 25), (Dashboard.colesterol dados >? 200)%Z,
      (negb (Dashboard.dor_peito dados =? 0)%Z); reflexivity.
Qed.
